(** * civic-tool: the media pipeline of [civilian/views.py]

    A shallow embedding of the duration prober
    [_get_video_duration_seconds], of [save_uploaded_file_temp] and of the
    ingestion view [report_issue], together with the part of
    [civilian/models.py] the view writes to, and the properties the
    specification states about them.

    Python floats are IEEE binary64 values ([spec_float] at precision 53);
    Python dictionaries and object attributes are [gmap string _]; the
    temporary directory is a finite map from file stems to contents; code
    that can raise runs in a state-and-exception monad whose state survives
    a raised exception, as in Python. *)

From Stdlib Require Import ZArith String List Ascii Bool Lia.
From Stdlib Require Import Strings.Byte.
From Stdlib Require Import Floats.SpecFloat.
From stdpp Require Import gmap strings pretty.
Import ListNotations.
Local Open Scope string_scope.
Local Open Scope list_scope.

(** ** Python values *)

(** An exception is represented by its message. *)
Definition exn : Type := string.

Inductive result (A : Type) : Type :=
| Ok (a : A)
| Raise (e : exn).
Arguments Ok {A} a.
Arguments Raise {A} e.

Module PyFloat.
Definition float : Type := spec_float.
Definition prec : Z := 53.
Definition emax : Z := 1024.

(** [float(n)] for an integer [n], rounded to nearest even. *)
Definition of_int (z : Z) : float := binary_normalize prec emax z 0 false.

(** [m * 2**e] as a float; used for the literal [0.5]. *)
Definition of_scaled (m e : Z) : float := binary_normalize prec emax m e false.

Definition zero : float := of_int 0.
Definition ltb (x y : float) : bool := SFltb x y.
Definition leb (x y : float) : bool := SFleb x y.
Definition eqb (x y : float) : bool := SFeqb x y.
Definition div (x y : float) : float := SFdiv prec emax x y.

(** [x / y] on floats: Python raises on a zero divisor of either sign. *)
Definition truediv (x y : float) : result float :=
  if eqb y zero then Raise "ZeroDivisionError: float division by zero"
  else Ok (div x y).

(** [a / b] on integers.  CPython rounds the exact quotient once; for
    operands below [2**53] in magnitude, which covers every file size,
    that is the quotient of the two converted operands. *)
Definition int_truediv (a b : Z) : result float :=
  if (b =? 0)%Z then Raise "ZeroDivisionError: division by zero"
  else Ok (div (of_int a) (of_int b)).
End PyFloat.
Export PyFloat(float).

Module PyStr.
(** Truth value of a string: non-empty. *)
Definition truthy (s : string) : bool :=
  match s with EmptyString => false | String _ _ => true end.

(** [a or b] on strings. *)
Definition or_ (a b : string) : string := if truthy a then a else b.

(** A string is the UTF-8 encoding of Python's: the code points for
    which [str.isspace] holds are U+0009 to U+000D, U+001C to U+0020,
    U+0085, U+00A0, U+1680, U+2000 to U+200A, U+2028, U+2029, U+202F,
    U+205F and U+3000, encoded in one, two or three bytes. *)
Definition is_space (c : ascii) : bool :=
  let n := nat_of_ascii c in
  ((9 <=? n)%nat && (n <=? 13)%nat) || ((28 <=? n)%nat && (n <=? 32)%nat).

(** U+0085 and U+00A0 *)
Definition is_space2 (c1 c2 : ascii) : bool :=
  (nat_of_ascii c1 =? 194)%nat
  && ((nat_of_ascii c2 =? 133)%nat || (nat_of_ascii c2 =? 160)%nat).

(** U+1680, U+2000 to U+200A, U+2028, U+2029, U+202F, U+205F and U+3000 *)
Definition is_space3 (c1 c2 c3 : ascii) : bool :=
  let '(n1, n2, n3) := (nat_of_ascii c1, nat_of_ascii c2, nat_of_ascii c3) in
  ((n1 =? 225) && (n2 =? 154) && (n3 =? 128))%nat
  || ((n1 =? 226) && (n2 =? 128)
      && (((128 <=? n3) && (n3 <=? 138)) || (n3 =? 168) || (n3 =? 169) || (n3 =? 175)))%nat
  || ((n1 =? 226) && (n2 =? 129) && (n3 =? 159))%nat
  || ((n1 =? 227) && (n2 =? 128) && (n3 =? 128))%nat.

(** Removes the leading code points that are whitespace; [space2] and
    [space3] recognise the ones of two and three bytes. *)
Fixpoint lstrip_with (space2 : ascii -> ascii -> bool)
    (space3 : ascii -> ascii -> ascii -> bool) (s : string) : string :=
  match s with
  | EmptyString => EmptyString
  | String c1 s1 =>
      if is_space c1 then lstrip_with space2 space3 s1
      else
        match s1 with
        | EmptyString => s
        | String c2 s2 =>
            if space2 c1 c2 then lstrip_with space2 space3 s2
            else
              match s2 with
              | EmptyString => s
              | String c3 s3 =>
                  if space3 c1 c2 c3 then lstrip_with space2 space3 s3 else s
              end
        end
  end.

Definition lstrip (s : string) : string := lstrip_with is_space2 is_space3 s.

(** From the end: the bytes of a code point come in reverse. *)
Definition rstrip (s : string) : string :=
  String.rev (lstrip_with (fun c2 c1 => is_space2 c1 c2)
                          (fun c3 c2 c1 => is_space3 c1 c2 c3)
                          (String.rev s)).

(** [s.strip()] *)
Definition strip (s : string) : string := rstrip (lstrip s).

(** [needle in hay] *)
Definition contains (needle hay : string) : bool :=
  match String.index 0 needle hay with Some _ => true | None => false end.

(** [s.startswith(p)] *)
Definition startswith (s p : string) : bool := String.prefix p s.

(** [s.rfind(c)] for a one-character [c]: the last index, or [-1]. *)
Fixpoint rfind_from (c : ascii) (s : string) (i : Z) (acc : Z) : Z :=
  match s with
  | EmptyString => acc
  | String a s' => rfind_from c s' (i + 1)%Z (if Ascii.eqb a c then i else acc)
  end.
Definition rfind (c : ascii) (s : string) : Z := rfind_from c s 0%Z (-1)%Z.
End PyStr.

Module os_path.
(** [posixpath.join] of two components. *)
Definition join2 (a b : string) : string :=
  if PyStr.startswith b "/" then b
  else if negb (PyStr.truthy a) || PyStr.startswith (String.rev a) "/" then a +:+ b
  else a +:+ "/" +:+ b.

Definition join (a : string) (ps : list string) : string := fold_left join2 ps a.

(** [posixpath.splitext]: the extension starts at the last dot of the
    last path component, unless that component has only leading dots
    before it. *)
Definition splitext (p : string) : string * string :=
  let sepIndex := PyStr.rfind "/" p in
  let dotIndex := PyStr.rfind "." p in
  if (sepIndex <? dotIndex)%Z then
    let filenameIndex := Z.to_nat (sepIndex + 1) in
    let d := Z.to_nat dotIndex in
    let between := list_ascii_of_string (String.substring filenameIndex (d - filenameIndex) p) in
    if existsb (fun a => negb (Ascii.eqb a ".")) between
    then (String.substring 0 d p, String.substring d (String.length p - d) p)
    else (p, "")
  else (p, "").
End os_path.

(** ** Data model *)

(** A Django upload: [name], [content_type], [size] and the chunks that
    [chunks()] yields.  [chunks()] rewinds the file itself, so the read
    position that [seek(0)] resets is not part of the model. *)
Record UploadedFile : Type := {
  uf_name : string;
  uf_content_type : option string;
  uf_size : Z;
  uf_chunks : list (list byte)
}.

Record HttpRequest : Type := {
  method : string;
  POST : gmap string string;
  FILES : gmap string UploadedFile;
  (** [Some id] for an authenticated user *)
  user : option Z
}.

Inductive HttpResponse : Type :=
| Render (template : string) (context : list (string * string))
| Redirect (to : string).

(** The dictionary [detect_pothole_severity] returns. *)
Record DetectionResult : Type := {
  boxes : Z;
  severity : string;
  annotated_output : string
}.

(** Column and attribute values. *)
Inductive value : Type :=
| VNone
| VInt (n : Z)
| VStr (s : string)
| VFile (f : UploadedFile).

Inductive Strategy : Type := MoviePy | FFmpeg | OpenCV | FileSize.

Definition strategies : list Strategy := [MoviePy; FFmpeg; OpenCV; FileSize].

(** The temporary directory: stem of the generated name to suffix and
    contents. *)
Abbreviation TmpDir := (gmap nat (string * list byte)).

Record World : Type := {
  (** table of [IssueReport]; the primary key is the index *)
  db : list (gmap string value);
  tmpfs : TmpDir
}.

(** What a run leaves behind for the properties to speak about: the end of
    every duration strategy with what it produced, and every call of the
    classifier with its arguments and outcome. *)
Inductive Event : Type :=
| Attempt (s : Strategy) (r : result (option float))
| Detect (file_path model_path output_folder : string) (conf_threshold : float)
         (r : result DetectionResult).

(** ** State and exceptions *)

Definition M (A : Type) : Type := World -> result A * World * list Event.

Definition ret {A} (a : A) : M A := fun w => (Ok a, w, []).

Definition bind {A B} (m : M A) (f : A -> M B) : M B :=
  fun w =>
    match m w with
    | (Ok a, w1, t1) => let '(r, w2, t2) := f a w1 in (r, w2, t1 ++ t2)
    | (Raise e, w1, t1) => (Raise e, w1, t1)
    end.

Declare Scope py_scope.
Delimit Scope py_scope with py.
Notation "x <- m ;; k" := (bind m (fun x => k))
  (at level 100, m at next level, right associativity) : py_scope.
Notation "m ;; k" := (bind m (fun _ => k))
  (at level 100, right associativity) : py_scope.
Local Open Scope py_scope.

Definition raise {A} (e : exn) : M A := fun w => (Raise e, w, []).

Definition lift {A} (r : result A) : M A := fun w => (r, w, []).

Definition emit (ev : Event) : M unit := fun w => (Ok tt, w, [ev]).

(** [try: body  except Exception as e: handler e] *)
Definition try_except {A} (body : M A) (handler : exn -> M A) : M A :=
  fun w =>
    match body w with
    | (Ok a, w1, t1) => (Ok a, w1, t1)
    | (Raise e, w1, t1) => let '(r, w2, t2) := handler e w1 in (r, w2, t1 ++ t2)
    end.

(** [try: body  finally: cleanup] *)
Definition finally {A} (body : M A) (cleanup : M unit) : M A :=
  fun w =>
    let '(r, w1, t1) := body w in
    let '(_, w2, t2) := cleanup w1 in
    (r, w2, t1 ++ t2).

(** [for x in xs: f x] *)
Fixpoint for_each {A} (xs : list A) (f : A -> M unit) : M unit :=
  match xs with
  | [] => ret tt
  | x :: xs' => f x ;; for_each xs' f
  end.

Definition res {A} (x : result A * World * list Event) : result A := x.1.1.
Definition world {A} (x : result A * World * list Event) : World := x.1.2.
Definition trace {A} (x : result A * World * list Event) : list Event := x.2.

(** ** Temporary files *)

(** An open temporary file: the stem of its name and its suffix. *)
Definition TmpFile : Type := nat * string.

(** [tmp.name] *)
Definition tmp_name (tmp : TmpFile) : string := "/tmp/tmp" +:+ pretty tmp.1 +:+ tmp.2.

Definition set_tmpfs (f : TmpDir -> TmpDir) (w : World) : World :=
  {| db := db w; tmpfs := f (tmpfs w) |}.

(** [mkstemp]: a new, empty file under a name that is not in use.  The
    errors of the operating system (a full disk, a suffix too long for a
    file name) are not modelled: the file is always created. *)
Definition mkstemp (suffix : string) : M TmpFile :=
  fun w =>
    let stem := fresh (dom (tmpfs w)) in
    (Ok (stem, suffix), set_tmpfs (insert stem (suffix, [])) w, []).

(** [tmp.write(chunk)] *)
Definition tmp_write (tmp : TmpFile) (chunk : list byte) : M unit :=
  fun w => (Ok tt, set_tmpfs (alter (fun f => (f.1, f.2 ++ chunk)) tmp.1) w, []).

Definition unlink (tmp : TmpFile) : M unit :=
  fun w => (Ok tt, set_tmpfs (delete tmp.1) w, []).

(** [with NamedTemporaryFile(delete=True, suffix=suffix) as tmp: body tmp] *)
Definition with_NamedTemporaryFile {A} (suffix : string) (body : TmpFile -> M A) : M A :=
  tmp <- mkstemp suffix ;;
  finally (body tmp) (unlink tmp).

(** ** The libraries the views call

    Third-party code and the deployment: the classifier of [ai/utils/detect.py],
    the three decoding back ends, Python's [float(str)] and [{:.1f}]
    formatting, and the directory of [views.py].  A back end reads the
    temporary directory through the path it is given. *)

(** What the view reads of a [cv2.VideoCapture]. *)
Record Capture : Type := {
  isOpened : bool;
  CAP_PROP_FRAME_COUNT : float;
  CAP_PROP_FPS : float
}.

Class Libs : Type := {
  APP_ROOTs : string;
  detect_pothole_severity :
    TmpDir -> forall (file_path model_path output_folder : string) (conf_threshold : float),
    result DetectionResult;
  (** [VideoFileClip(path).duration] *)
  VideoFileClip : TmpDir -> string -> result (option float);
  (** [ffmpeg.probe(path)['streams']] *)
  ffmpeg_probe : TmpDir -> string -> result (list (gmap string string));
  cv2_VideoCapture : TmpDir -> string -> result Capture;
  (** [float(s)] for a string [s] *)
  py_float : string -> result float;
  (** [f"{d:.1f}"] *)
  format_1f : float -> string;
  (** What the file storage does with an upload given to a file field:
      the name it keeps the file under, from [upload_to] and the name of
      the upload, or its refusal.  The storage cleans the name (spaces,
      characters that are not allowed), picks one that is not taken and
      refuses a name it cannot use.  The media directory it looks at and
      writes to is not part of the world: the answer is taken as a
      function of the world at the time of the call. *)
  storage_save : World -> forall (upload_to : string) (content : UploadedFile), result string
}.

(** Calls a library on a temporary file. *)
Definition call {A} (lib : TmpDir -> string -> result A) (tmp : TmpFile) : M A :=
  fun w => (lib (tmpfs w) (tmp_name tmp), w, []).

(** ** [civilian/models.py] *)

Module IssueReport.
Inductive Field : Type :=
| AutoField
| ForeignKey
| CharField (default : string)
| TextField
| FileField (upload_to : string).

(** The columns of the model; [created_at] and [updated_at] are filled by
    the clock and left out. *)
Definition fields : list (string * Field) :=
  [ ("id", AutoField);
    ("reporter", ForeignKey);
    ("title", CharField "");
    ("category", CharField "");
    ("description", TextField);
    ("location", CharField "");
    ("status", CharField "pending");
    ("severity", CharField "medium");
    ("image", FileField "issues/images/");
    ("video", FileField "issues/videos/") ].

Definition field_of (name : string) : option Field :=
  snd <$> find (fun nf => String.eqb nf.1 name) fields.

Definition is_field (name : string) : bool :=
  match field_of name with Some _ => true | None => false end.

(** The value of a column that was not given.  [VNone] stands for the
    empty column, which the database holds as NULL for the reporter and
    as the empty string for a file; the primary key of a row is its index
    in the table, counted from 0 where the database counts from 1. *)
Definition default_of (f : Field) : value :=
  match f with
  | AutoField | ForeignKey | FileField _ => VNone
  | CharField d => VStr d
  | TextField => VStr ""
  end.

Definition defaults : gmap string value :=
  list_to_map (map (fun nf => (nf.1, default_of nf.2)) fields).

(** What a column receives from an attribute: a file field hands the
    upload to the storage and keeps the name the storage returns; the
    storage may refuse. *)
Definition pre_save `{Libs} (w : World) (name : string) (v : value) : result value :=
  match field_of name, v with
  | Some (FileField upload_to), VFile f =>
      match storage_save w upload_to f with
      | Ok stored => Ok (VStr stored)
      | Raise e => Raise e
      end
  | _, _ => Ok v
  end.

(** The values of the listed columns, in order. *)
Fixpoint pre_save_all `{Libs} (w : World) (instance : gmap string value)
    (update_fields : list string) : result (list (string * value)) :=
  match update_fields with
  | [] => Ok []
  | f :: rest =>
      match pre_save w f (default VNone (instance !! f)) with
      | Raise e => Raise e
      | Ok v =>
          match pre_save_all w instance rest with
          | Raise e => Raise e
          | Ok values => Ok ((f, v) :: values)
          end
      end
  end.

(** [IssueReport.objects.create] with keyword arguments: inserts a row and returns the
    instance, a dictionary of attributes. *)
Definition objects_create (kwargs : list (string * value)) : M (gmap string value) :=
  fun w =>
    if forallb (fun kv => is_field kv.1) kwargs then
      let pk := VInt (Z.of_nat (length (db w))) in
      let row := <["id" := pk]> (foldr (fun kv r => <[kv.1 := kv.2]> r) defaults kwargs) in
      (Ok row, {| db := db w ++ [row]; tmpfs := tmpfs w |}, [])
    else (Raise "TypeError: IssueReport() got unexpected keyword arguments", w, []).

(** [instance.save(update_fields=...)]: writes the listed columns, and
    only those, from the attributes of the instance.  A refusal of the
    storage is raised before the row is touched. *)
Definition save `{Libs} (instance : gmap string value) (update_fields : list string)
  : M unit :=
  fun w =>
    if negb (forallb is_field update_fields) then
      (Raise "ValueError: The following fields do not exist in this model", w, [])
    else
      match instance !! "id" with
      | Some (VInt pk) =>
          match pre_save_all w instance update_fields with
          | Raise e => (Raise e, w, [])
          | Ok values =>
              match db w !! Z.to_nat pk with
              | Some row =>
                  let row' := foldr (fun fv r => <[fv.1 := fv.2]> r) row values in
                  (Ok tt, {| db := <[Z.to_nat pk := row']> (db w); tmpfs := tmpfs w |}, [])
              | None =>
                  (Raise "DatabaseError: Save with update_fields did not affect any rows.",
                   w, [])
              end
          end
      | _ => (Raise "ValueError: Cannot force an update in save() with no primary key.", w, [])
      end.
End IssueReport.

(** ** [_get_video_duration_seconds] *)

Section Views.
Context `{L : Libs}.

(** The suffix of the temporary copies, from the declared content type. *)
Definition file_extension_for (uploaded_file : UploadedFile) : string :=
  match uf_content_type uploaded_file with
  | Some content_type =>
      if PyStr.truthy content_type then
        if PyStr.contains "mp4" content_type then ".mp4"
        else if PyStr.contains "webm" content_type then ".webm"
        else if PyStr.contains "avi" content_type then ".avi"
        else ".webm"
      else ".webm"
  | None => ".webm"
  end.

(** Runs one method inside its [try]; the handler leaves [duration] as it
    was.  The end of the method is recorded either way. *)
Definition strategy (s : Strategy) (duration : option float) (body : M (option float))
  : M (option float) :=
  try_except
    (d <- body ;; emit (Attempt s (Ok d)) ;; ret d)
    (fun e => emit (Attempt s (Raise e)) ;; ret duration).

(** Method 1: moviepy. *)
Definition moviepy_duration (uploaded_file : UploadedFile) (file_extension : string)
    (duration : option float) : M (option float) :=
  with_NamedTemporaryFile file_extension (fun tmp =>
    for_each (uf_chunks uploaded_file) (tmp_write tmp) ;;
    clip_duration <- call VideoFileClip tmp ;;
    match clip_duration with
    | Some d => if PyFloat.ltb PyFloat.zero d then ret (Some d) else ret duration
    | None => ret duration
    end).

(** [next((s for s in streams if s['codec_type'] == 'video'), None)] *)
Fixpoint first_video_stream (streams : list (gmap string string))
  : result (option (gmap string string)) :=
  match streams with
  | [] => Ok None
  | stream :: rest =>
      match stream !! "codec_type" with
      | None => Raise "KeyError: 'codec_type'"
      | Some codec_type =>
          if String.eqb codec_type "video" then Ok (Some stream)
          else first_video_stream rest
      end
  end.

(** Method 2: ffmpeg-python. *)
Definition ffmpeg_duration (uploaded_file : UploadedFile) (file_extension : string)
    (duration : option float) : M (option float) :=
  with_NamedTemporaryFile file_extension (fun tmp =>
    for_each (uf_chunks uploaded_file) (tmp_write tmp) ;;
    streams <- call ffmpeg_probe tmp ;;
    duration_info <- lift (first_video_stream streams) ;;
    match duration_info with
    | Some info =>
        if negb (bool_decide (info = ∅)) then
          match info !! "duration" with
          | Some text => d <- lift (py_float text) ;; ret (Some d)
          | None => ret duration
          end
        else ret duration
    | None => ret duration
    end).

(** What method 3 does with the capture it opened. *)
Definition capture_duration (cap : Capture) (duration : option float)
  : result (option float) :=
  if isOpened cap then
    let frame_count := CAP_PROP_FRAME_COUNT cap in
    let fps := CAP_PROP_FPS cap in
    if PyFloat.ltb PyFloat.zero fps && PyFloat.ltb PyFloat.zero frame_count then
      match PyFloat.truediv frame_count fps with
      | Ok d => Ok (Some d)
      | Raise e => Raise e
      end
    else Ok duration
  else Ok duration.

(** Method 3: OpenCV. *)
Definition opencv_duration (uploaded_file : UploadedFile) (file_extension : string)
    (duration : option float) : M (option float) :=
  with_NamedTemporaryFile file_extension (fun tmp =>
    for_each (uf_chunks uploaded_file) (tmp_write tmp) ;;
    cap <- call cv2_VideoCapture tmp ;;
    lift (capture_duration cap duration)).

(** Method 4: one second per megabyte, kept when in (0, 10]. *)
Definition file_size_duration (uploaded_file : UploadedFile) (duration : option float)
  : result (option float) :=
  match PyFloat.int_truediv (uf_size uploaded_file) (1024 * 1024) with
  | Ok file_size_mb =>
      let estimated_duration := file_size_mb in
      if PyFloat.ltb PyFloat.zero estimated_duration
         && PyFloat.leb estimated_duration (PyFloat.of_int 10)
      then Ok (Some estimated_duration)
      else Ok duration
  | Raise e => Raise e
  end.

Definition _get_video_duration_seconds (uploaded_file : UploadedFile) : M (option float) :=
  try_except
    (let duration : option float := None in
     let file_extension := file_extension_for uploaded_file in
     duration <- strategy MoviePy duration
                   (moviepy_duration uploaded_file file_extension duration) ;;
     duration <- match duration with
                 | None => strategy FFmpeg duration
                             (ffmpeg_duration uploaded_file file_extension duration)
                 | Some _ => ret duration
                 end ;;
     duration <- match duration with
                 | None => strategy OpenCV duration
                             (opencv_duration uploaded_file file_extension duration)
                 | Some _ => ret duration
                 end ;;
     duration <- match duration with
                 | None => strategy FileSize duration
                             (lift (file_size_duration uploaded_file duration))
                 | Some _ => ret duration
                 end ;;
     ret duration)
    (fun e => ret None).

(** *** The cascade as a strategy list

    The reading of the prober the specification gives: an ordered list of
    strategies, tried until the first one that produces a duration. *)

(** The body of a method, entered with no duration yet. *)
Definition method_body (s : Strategy) (uploaded_file : UploadedFile) : M (option float) :=
  let file_extension := file_extension_for uploaded_file in
  match s with
  | MoviePy => moviepy_duration uploaded_file file_extension None
  | FFmpeg => ffmpeg_duration uploaded_file file_extension None
  | OpenCV => opencv_duration uploaded_file file_extension None
  | FileSize => lift (file_size_duration uploaded_file None)
  end.

(** What a method yields when run in world [w]. *)
Definition outcome (uploaded_file : UploadedFile) (w : World) (s : Strategy)
  : result (option float) :=
  res (method_body s uploaded_file w).

(** The duration a method's outcome leaves: none after an exception. *)
Definition produced (r : result (option float)) : option float :=
  match r with Ok d => d | Raise _ => None end.

(** Tries the strategies in order, stopping after the first that produces
    a duration; returns that duration and the attempts made. *)
Fixpoint cascade (out : Strategy -> result (option float)) (ss : list Strategy)
  : option float * list Event :=
  match ss with
  | [] => (None, [])
  | s :: rest =>
      match produced (out s) with
      | Some d => (Some d, [Attempt s (out s)])
      | None => let '(d, t) := cascade out rest in (d, Attempt s (out s) :: t)
      end
  end.

(** ** [save_uploaded_file_temp] and [report_issue] *)

(** The temporary file is opened with [delete=False]: leaving the [with]
    block closes it and keeps it. *)
Definition save_uploaded_file_temp (uploaded_file : UploadedFile) : M string :=
  let original_name := uf_name uploaded_file in
  let extension := PyStr.or_ (os_path.splitext original_name).2 ".tmp" in
  temp_file <- mkstemp extension ;;
  for_each (uf_chunks uploaded_file) (tmp_write temp_file) ;;
  let temp_path := tmp_name temp_file in
  ret temp_path.

(** [request.POST.get(key, "")] *)
Definition POST_get (request : HttpRequest) (key : string) : string :=
  default "" (POST request !! key).

(** An upload that is present and true: Django files are true when they
    have a name. *)
Definition attached (file : option UploadedFile) : option UploadedFile :=
  match file with
  | Some f => if PyStr.truthy (uf_name f) then Some f else None
  | None => None
  end.

(** The call of the classifier, recorded with its outcome. *)
Definition classify (file_path output_folder : string) : M DetectionResult :=
  fun w =>
    let model_path := os_path.join APP_ROOTs [".."; "ai"; "utils"; "best.pt"] in
    let conf_threshold := PyFloat.of_scaled 1 (-1) in
    let r := detect_pothole_severity (tmpfs w) file_path model_path output_folder conf_threshold in
    (r, w, [Detect file_path model_path output_folder conf_threshold r]).

(** [content_type.startswith(prefix)], on a content type that may be [None]. *)
Definition content_type_startswith (f : UploadedFile) (prefix : string) : M bool :=
  match uf_content_type f with
  | Some content_type => ret (PyStr.startswith content_type prefix)
  | None => raise "AttributeError: 'NoneType' object has no attribute 'startswith'"
  end.

Definition report_issue_html (error : string) : HttpResponse :=
  Render "civilian/report_issue.html" [("error", error)].

(** The second half of the [try] block: validates and saves the video,
    then redirects. *)
Definition attach_video (video_file : option UploadedFile) (result : DetectionResult)
    (issue : gmap string value) : M HttpResponse :=
  match attached video_file with
  | Some video =>
      is_video <- content_type_startswith video "video/" ;;
      if negb is_video then
        ret (report_issue_html "Invalid video file type. Please upload a valid video.")
      else
        let issue := <["video" := VFile video]> issue in
        let issue := <["annotated_video" := VStr (annotated_output result)]> issue in
        IssueReport.save issue ["video"] ;;
        ret (Redirect "civilian_view_reports")
  | None => ret (Redirect "civilian_view_reports")
  end.

(** The first half: validates and saves the image, then goes on to the
    video. *)
Definition attach_image (image_file video_file : option UploadedFile)
    (result : DetectionResult) (issue : gmap string value) : M HttpResponse :=
  match attached image_file with
  | Some image =>
      is_image <- content_type_startswith image "image/" ;;
      if negb is_image then
        ret (report_issue_html "Invalid image file type. Please upload a valid image.")
      else
        let issue := <["image" := VFile image]> issue in
        let issue := <["annotated_image" := VStr (annotated_output result)]> issue in
        IssueReport.save issue ["image"] ;;
        attach_video video_file result issue
  | None => attach_video video_file result issue
  end.

(** The [try] block that creates the record and attaches the media. *)
Definition create_issue (request : HttpRequest)
    (title category description location : string)
    (image_file video_file : option UploadedFile) (result : DetectionResult)
  : M HttpResponse :=
  try_except
    (issue <- IssueReport.objects_create
                [ ("reporter", match user request with Some uid => VInt uid | None => VNone end);
                  ("title", VStr title);
                  ("category", VStr category);
                  ("description", VStr description);
                  ("location", VStr location);
                  ("severity", VStr (severity result)) ] ;;
     attach_image image_file video_file result issue)
    (fun e => ret (report_issue_html ("Failed to create issue report: " +:+ e))).

(** The duration check of a video, then the creation of the record. *)
Definition validate_and_create (request : HttpRequest)
    (title category description location : string)
    (image_file video_file : option UploadedFile) (result : DetectionResult)
  : M HttpResponse :=
  let create := create_issue request title category description location
                             image_file video_file result in
  match attached video_file with
  | Some video =>
      duration <- _get_video_duration_seconds video ;;
      match duration with
      | None => create
      | Some d =>
          if PyFloat.ltb (PyFloat.of_int 6) d then
            ret (report_issue_html
                   ("Video must be 6 seconds or less. Your video is "
                    +:+ format_1f d +:+ " seconds long."))
          else create
      end
  | None => create
  end.

Definition report_issue (request : HttpRequest) : M HttpResponse :=
  if String.eqb (method request) "POST" then
    let title := PyStr.strip (POST_get request "title") in
    let category := PyStr.strip (POST_get request "category") in
    let description := PyStr.strip (POST_get request "description") in
    let location := PyStr.strip (POST_get request "location") in
    let image_file := FILES request !! "image" in
    let video_file := FILES request !! "video" in
    if negb (PyStr.truthy title && PyStr.truthy category
             && PyStr.truthy description && PyStr.truthy location) then
      ret (report_issue_html "All fields are required.")
    else
      match attached image_file with
      | Some image =>
          temp_image_path <- save_uploaded_file_temp image ;;
          result <- classify temp_image_path
                      (os_path.join APP_ROOTs [".."; "media"; "issues"; "ann_images"]) ;;
          if (boxes result =? 0)%Z then ret (Redirect "civilian_view_reports")
          else validate_and_create request title category description location
                                   image_file video_file result
      | None =>
          match attached video_file with
          | Some video =>
              temp_video_path <- save_uploaded_file_temp video ;;
              result <- classify temp_video_path
                          (os_path.join APP_ROOTs [".."; "media"; "issues"; "ann_videos"]) ;;
              if (boxes result =? 0)%Z then ret (Redirect "civilian_view_reports")
              else validate_and_create request title category description location
                                       image_file video_file result
          | None => ret (Redirect "civilian_view_reports")
          end
      end
  else ret (Render "civilian/report_issue.html" []).

End Views.

(** ** Concrete libraries and requests *)

Module Fixtures.
Definition one_box : DetectionResult :=
  {| boxes := 1; severity := "low"; annotated_output := "media/issues/ann_images/out.jpg" |}.
Definition no_box : DetectionResult :=
  {| boxes := 0; severity := "low"; annotated_output := "media/issues/ann_images/out.jpg" |}.

(** No decoder can read the upload; the classifier answers [r]; the
    storage keeps every upload under its own name. *)
Definition libs (r : result DetectionResult) : Libs :=
  {| APP_ROOTs := "/srv/civic_tool/civilian";
     detect_pothole_severity := fun _ _ _ _ _ => r;
     VideoFileClip := fun _ _ => Raise "OSError: MoviePy error: failed to read the duration";
     ffmpeg_probe := fun _ _ => Raise "ffmpeg._run.Error: ffprobe error";
     cv2_VideoCapture := fun _ _ =>
       Ok {| isOpened := false; CAP_PROP_FRAME_COUNT := PyFloat.zero;
             CAP_PROP_FPS := PyFloat.zero |};
     py_float := fun _ => Raise "ValueError: could not convert string to float";
     format_1f := fun _ => "?";
     storage_save := fun _ upload_to content => Ok (upload_to +:+ uf_name content) |}.

(** moviepy reads a clip of [d] seconds. *)
Definition libs_clip (d : Z) : Libs :=
  {| APP_ROOTs := "/srv/civic_tool/civilian";
     detect_pothole_severity := fun _ _ _ _ _ => Ok one_box;
     VideoFileClip := fun _ _ => Ok (Some (PyFloat.of_int d));
     ffmpeg_probe := fun _ _ => Raise "ffmpeg._run.Error: ffprobe error";
     cv2_VideoCapture := fun _ _ => Raise "ImportError: No module named 'cv2'";
     py_float := fun _ => Raise "ValueError: could not convert string to float";
     format_1f := fun _ => "?";
     storage_save := fun _ upload_to content => Ok (upload_to +:+ uf_name content) |}.

(** Only OpenCV opens the upload, as the capture [cap]. *)
Definition libs_capture (cap : Capture) : Libs :=
  {| APP_ROOTs := "/srv/civic_tool/civilian";
     detect_pothole_severity := fun _ _ _ _ _ => Ok one_box;
     VideoFileClip := fun _ _ => Raise "OSError: MoviePy error: failed to read the duration";
     ffmpeg_probe := fun _ _ => Raise "ffmpeg._run.Error: ffprobe error";
     cv2_VideoCapture := fun _ _ => Ok cap;
     py_float := fun _ => Raise "ValueError: could not convert string to float";
     format_1f := fun _ => "?";
     storage_save := fun _ upload_to content => Ok (upload_to +:+ uf_name content) |}.

(** Opened captures at 30 frames per second: 90 frames, no frame, and a
    frame count below zero. *)
Definition ninety_frames : Capture :=
  {| isOpened := true; CAP_PROP_FRAME_COUNT := PyFloat.of_int 90;
     CAP_PROP_FPS := PyFloat.of_int 30 |}.
Definition no_frames : Capture :=
  {| isOpened := true; CAP_PROP_FRAME_COUNT := PyFloat.of_int 0;
     CAP_PROP_FPS := PyFloat.of_int 30 |}.
Definition negative_frames : Capture :=
  {| isOpened := true; CAP_PROP_FRAME_COUNT := PyFloat.of_int (-1);
     CAP_PROP_FPS := PyFloat.of_int 30 |}.

Definition upload (name content_type : string) (size : Z) : UploadedFile :=
  {| uf_name := name; uf_content_type := Some content_type; uf_size := size;
     uf_chunks := [[x01; x02]; [x03]] |}.

Definition image_jpg : UploadedFile := upload "a.jpg" "image/jpeg" 2048.
Definition document_pdf : UploadedFile := upload "a.pdf" "application/pdf" 2048.
Definition video_webm : UploadedFile := upload "v.webm" "video/webm" 3145728.

Definition form : gmap string string :=
  <["title" := "Pothole"]> (<["category" := "pothole"]>
    (<["description" := "Deep hole"]> (<["location" := " Main St "]> ∅))).

Definition post (files : gmap string UploadedFile) : HttpRequest :=
  {| method := "POST"; POST := form; FILES := files; user := Some 7%Z |}.

Definition empty_world : World := {| db := []; tmpfs := ∅ |}.
End Fixtures.

(** ** Observations on runs *)

(** The strategies a trace attempted, in order. *)
Definition attempts (t : list Event) : list Strategy :=
  omap (fun ev => match ev with Attempt s _ => Some s | Detect _ _ _ _ _ => None end) t.

(** The outcomes of the classifier calls of a trace. *)
Definition detections (t : list Event) : list (result DetectionResult) :=
  omap (fun ev => match ev with Detect _ _ _ _ r => Some r | Attempt _ _ => None end) t.

(** The four text fields of the form, stripped, are all non-empty. *)
Definition fields_present (request : HttpRequest) : bool :=
  PyStr.truthy (PyStr.strip (POST_get request "title"))
  && PyStr.truthy (PyStr.strip (POST_get request "category"))
  && PyStr.truthy (PyStr.strip (POST_get request "description"))
  && PyStr.truthy (PyStr.strip (POST_get request "location")).

(** The upload the view classifies and the folder of its annotated copy:
    the image when one is attached, otherwise the video. *)
Definition classified_upload (request : HttpRequest) : option (UploadedFile * string) :=
  match attached (FILES request !! "image") with
  | Some image => Some (image, "ann_images")
  | None =>
      match attached (FILES request !! "video") with
      | Some video => Some (video, "ann_videos")
      | None => None
      end
  end.

(** The world once [save_uploaded_file_temp] has stored [f]. *)
Definition saved (f : UploadedFile) (w : World) : World :=
  set_tmpfs (insert (fresh (dom (tmpfs w)))
                    (PyStr.or_ (os_path.splitext (uf_name f)).2 ".tmp",
                     concat (uf_chunks f))) w.

(** The path [save_uploaded_file_temp] returns for [f]. *)
Definition saved_path (f : UploadedFile) (w : World) : string :=
  tmp_name (fresh (dom (tmpfs w)), PyStr.or_ (os_path.splitext (uf_name f)).2 ".tmp").

(** The event a call of the classifier records. *)
Definition detect_event `{Libs} (file_path folder : string) (r : result DetectionResult) : Event :=
  Detect file_path (os_path.join APP_ROOTs [".."; "ai"; "utils"; "best.pt"])
         (os_path.join APP_ROOTs [".."; "media"; "issues"; folder])
         (PyFloat.of_scaled 1 (-1)) r.

(** The classifier as the view calls it on the stored copy of [f]. *)
Definition detection `{Libs} (f : UploadedFile) (folder : string) (w : World)
  : result DetectionResult :=
  detect_pothole_severity (tmpfs (saved f w)) (saved_path f w)
    (os_path.join APP_ROOTs [".."; "ai"; "utils"; "best.pt"])
    (os_path.join APP_ROOTs [".."; "media"; "issues"; folder])
    (PyFloat.of_scaled 1 (-1)).

(** A row that keeps what the view created it with and has no column for
    an annotated output. *)
Definition row_of (title : string) (result : DetectionResult) (pk : nat)
    (row : gmap string value) : Prop :=
  row !! "id" = Some (VInt (Z.of_nat pk))
  /\ row !! "title" = Some (VStr title)
  /\ row !! "severity" = Some (VStr (severity result))
  /\ row !! "annotated_image" = None
  /\ row !! "annotated_video" = None.

(** What the media steps can end with. *)
Definition attach_outcome (r : result HttpResponse) : Prop :=
  r = Ok (Redirect "civilian_view_reports")
  \/ r = Ok (report_issue_html "Invalid image file type. Please upload a valid image.")
  \/ r = Ok (report_issue_html "Invalid video file type. Please upload a valid video.")
  \/ exists e, r = Raise e.

(** The responses of [create_issue], all given after the record exists. *)
Definition created_response (response : HttpResponse) : Prop :=
  response = Redirect "civilian_view_reports"
  \/ response = report_issue_html "Invalid image file type. Please upload a valid image."
  \/ response = report_issue_html "Invalid video file type. Please upload a valid video."
  \/ exists e, response = report_issue_html ("Failed to create issue report: " +:+ e).

(** The two error pages the view gives before it reaches [create_issue]. *)
Definition rejected_before_creation `{Libs} (response : HttpResponse) : Prop :=
  response = report_issue_html "All fields are required."
  \/ exists d, response = report_issue_html
                           ("Video must be 6 seconds or less. Your video is "
                            +:+ format_1f d +:+ " seconds long.").

(** An event of the duration prober. *)
Definition is_attempt (ev : Event) : Prop := exists s r, ev = Attempt s r.

(** A computation that changes nothing but the temporary file [stem] and
    records nothing. *)
Definition tmp_local {A} (stem : nat) (m : M A) : Prop :=
  forall w,
    db (world (m w)) = db w
    /\ delete stem (tmpfs (world (m w))) = delete stem (tmpfs w)
    /\ trace (m w) = [].

(** A computation that leaves the world as it found it and records
    nothing. *)
Definition quiet {A} (m : M A) : Prop :=
  forall w, world (m w) = w /\ trace (m w) = [].

(** The row [create_issue] inserts, before any media column is written:
    the defaults of the model under the keyword arguments of the view. *)
Definition created_row (request : HttpRequest)
    (title category description location : string)
    (result : DetectionResult) (pk : nat) : gmap string value :=
  <["id" := VInt (Z.of_nat pk)]>
    (foldr (fun kv r => <[kv.1 := kv.2]> r) IssueReport.defaults
       [ ("reporter", match user request with Some uid => VInt uid | None => VNone end);
         ("title", VStr title);
         ("category", VStr category);
         ("description", VStr description);
         ("location", VStr location);
         ("severity", VStr (severity result)) ]).

(** The duration check lets the request through: the prober found no
    duration, or one that is not above six seconds. *)
Definition gate_passes (duration : option float) : bool :=
  match duration with
  | None => true
  | Some d => negb (PyFloat.ltb (PyFloat.of_int 6) d)
  end.

(** What method 1 does with the duration moviepy reports. *)
Definition clip_duration (reported : option float) : option float :=
  match reported with
  | Some d => if PyFloat.ltb PyFloat.zero d then Some d else None
  | None => None
  end.

(** What method 2 does with the streams ffprobe lists. *)
Definition stream_duration `{Libs} (streams : list (gmap string string))
  : result (option float) :=
  match first_video_stream streams with
  | Ok (Some info) =>
      if negb (bool_decide (info = ∅)) then
        match info !! "duration" with
        | Some text =>
            match py_float text with
            | Ok d => Ok (Some d)
            | Raise e => Raise e
            end
        | None => Ok None
        end
      else Ok None
  | Ok None => Ok None
  | Raise e => Raise e
  end.

(** A stream that names a codec type other than video. *)
Definition other_stream (stream : gmap string string) : Prop :=
  exists codec_type, stream !! "codec_type" = Some codec_type /\ codec_type <> "video".

(** ** [administrator/views.py]: the pagination of [view_reported_issues] *)

Module administrator.

(** The entries of the template context that depend on the page. *)
Record Pagination (A : Type) : Type := {
  reports_page : list A;
  total_reports : Z;
  total_pages : Z;
  current_page : Z;
  has_previous : bool;
  has_next : bool;
  previous_page : option Z;
  next_page : option Z
}.
Arguments reports_page {A} _.
Arguments total_reports {A} _.
Arguments total_pages {A} _.
Arguments current_page {A} _.
Arguments has_previous {A} _.
Arguments has_next {A} _.
Arguments previous_page {A} _.
Arguments next_page {A} _.

(** [reports[start:stop]] on a queryset: Django refuses a negative bound;
    otherwise the slice is an offset and a limit on the ordered rows.
    The database takes the offset as a signed 64-bit integer; what it
    answers to a larger one is not modelled, and the statements about
    pages are for offsets below 2^63. *)
Definition queryset_slice {A} (reports : list A) (start stop : Z) : result (list A) :=
  if (start <? 0)%Z || (stop <? 0)%Z then
    Raise "ValueError: Negative indexing is not supported."
  else Ok (take (Z.to_nat stop - Z.to_nat start) (drop (Z.to_nat start) reports)).

(** The block "Pagination (simple version)" of [view_reported_issues], on
    the filtered and ordered [reports] and the number [page] that
    [int(request.GET.get('page', 1))] returned. *)
Definition pagination {A} (reports : list A) (page : Z) : result (Pagination A) :=
  let per_page := 20%Z in
  let start := ((page - 1) * per_page)%Z in
  let end_ := (start + per_page)%Z in
  match queryset_slice reports start end_ with
  | Raise e => Raise e
  | Ok reports_page =>
      let total_reports := Z.of_nat (length reports) in
      let total_pages := ((total_reports + per_page - 1) / per_page)%Z in
      Ok {| reports_page := reports_page;
            total_reports := total_reports;
            total_pages := total_pages;
            current_page := page;
            has_previous := (1 <? page)%Z;
            has_next := (page <? total_pages)%Z;
            previous_page := if (1 <? page)%Z then Some (page - 1)%Z else None;
            next_page := if (page <? total_pages)%Z then Some (page + 1)%Z else None |}
  end.

(** The reports a page shows; none when the page cannot be computed. *)
Definition page_items {A} (reports : list A) (page : Z) : list A :=
  match pagination reports page with
  | Ok p => reports_page p
  | Raise _ => []
  end.

(** The number of pages the view announces for [reports]. *)
Definition page_count {A} (reports : list A) : nat :=
  Z.to_nat ((Z.of_nat (length reports) + 20 - 1) / 20).

End administrator.

(** ** [civilian/views.py]: [login_view] and [register_view] *)

(** A row of Django's [auth_user]; [last_login] and [date_joined] are
    filled by the clock and left out. *)
Module User.
Record t : Type := {
  id : Z;
  username : string;
  email : string;
  (** the encoded password *)
  password : string;
  is_staff : bool;
  is_active : bool
}.
End User.

(** What [django.contrib.auth] brings: the normalisation [create_user]
    applies to the e-mail address and the user name, and the password
    hasher. *)
Class Auth : Type := {
  normalize_email : string -> string;
  normalize_username : string -> string;
  make_password : string -> string;
  (** [check_password(raw, encoded)] *)
  check_password : string -> string -> bool
}.

(** The outcome of [User.objects.get]. *)
Inductive Lookup : Type :=
| Found (u : User.t)
| DoesNotExist
| MultipleObjectsReturned.

(** [User.objects.get(...)] on an exact match. *)
Definition objects_get (matches : User.t -> bool) (users : list User.t) : Lookup :=
  match List.filter matches users with
  | [] => DoesNotExist
  | [u] => Found u
  | _ :: _ :: _ => MultipleObjectsReturned
  end.

(** [User.objects.filter(...).exists()] *)
Definition objects_exists (matches : User.t -> bool) (users : list User.t) : bool :=
  existsb matches users.

Section Accounts.
Context `{Au : Auth}.

(** [authenticate(request, username=..., password=...)] with the model
    backend: the user of that name, when the password checks and the
    account is active. *)
Definition authenticate (users : list User.t) (username password : string)
  : result (option User.t) :=
  match objects_get (fun u => String.eqb (User.username u) username) users with
  | DoesNotExist => Ok None
  | MultipleObjectsReturned =>
      Raise "MultipleObjectsReturned: get() returned more than one User"
  | Found user =>
      if check_password password (User.password user) && User.is_active user
      then Ok (Some user) else Ok None
  end.

(** [User.objects.create_user(username=..., email=..., password=...)]:
    the new table and the new user.  The user name is unique in the
    table. *)
Definition create_user (users : list User.t) (username email password : string)
  : result (list User.t * User.t) :=
  if negb (PyStr.truthy username) then Raise "ValueError: The given username must be set"
  else
    let user := {| User.id := Z.of_nat (length users);
                   User.username := normalize_username username;
                   User.email := normalize_email email;
                   User.password := make_password password;
                   User.is_staff := false;
                   User.is_active := true |} in
    if objects_exists (fun u => String.eqb (User.username u) (User.username user)) users
    then Raise "IntegrityError: UNIQUE constraint failed: auth_user.username"
    else Ok (users ++ [user], user).

Definition login_html (error : string) : HttpResponse :=
  Render "civilian/login.html" [("error", error)].

Definition register_html (error : string) : HttpResponse :=
  Render "civilian/register.html" [("error", error)].

(** [request.user.is_authenticated] *)
Definition is_authenticated (request : HttpRequest) : bool :=
  match user request with Some _ => true | None => false end.

(** Returns the response and the user [login] was called with, if it
    was. *)
Definition login_view (request : HttpRequest) (users : list User.t)
  : result (HttpResponse * option User.t) :=
  if is_authenticated request then Ok (Redirect "home", None)
  else if String.eqb (method request) "POST" then
    let email := PyStr.strip (POST_get request "email") in
    let password := POST_get request "password" in
    if negb (PyStr.truthy email && PyStr.truthy password) then
      Ok (login_html "Email and password are required.", None)
    else
      match objects_get (fun u => String.eqb (User.email u) email) users with
      | DoesNotExist => Ok (login_html "Invalid credentials.", None)
      | MultipleObjectsReturned =>
          Raise "MultipleObjectsReturned: get() returned more than one User"
      | Found user_obj =>
          let username := User.username user_obj in
          match authenticate users username password with
          | Raise e => Raise e
          | Ok None => Ok (login_html "Invalid credentials.", None)
          | Ok (Some user) =>
              if User.is_staff user then Ok (Redirect "admin_home", Some user)
              else Ok (Redirect "civilian_dashboard", Some user)
          end
      end
  else Ok (Render "civilian/login.html" [], None).

(** Returns the response, the table of users afterwards and the user
    [login] was called with, if it was. *)
Definition register_view (request : HttpRequest) (users : list User.t)
  : result (HttpResponse * list User.t * option User.t) :=
  if is_authenticated request then Ok (Redirect "home", users, None)
  else if String.eqb (method request) "POST" then
    let email := PyStr.strip (POST_get request "email") in
    let username := PyStr.strip (POST_get request "username") in
    let password := POST_get request "password" in
    let confirm_password := POST_get request "confirm_password" in
    if negb (PyStr.truthy email && PyStr.truthy username
             && PyStr.truthy password && PyStr.truthy confirm_password) then
      Ok (register_html "All fields are required.", users, None)
    else if negb (String.eqb password confirm_password) then
      Ok (register_html "Passwords do not match.", users, None)
    else if objects_exists (fun u => String.eqb (User.username u) username) users then
      Ok (register_html "Username already taken.", users, None)
    else if objects_exists (fun u => String.eqb (User.email u) email) users then
      Ok (register_html "Email already registered.", users, None)
    else
      match create_user users username email password with
      | Raise e => Raise e
      | Ok (users', user) => Ok (Redirect "home", users', Some user)
      end
  else Ok (Render "civilian/register.html" [], users, None).

End Accounts.

Module AccountFixtures.
(** A hasher that tags the password, and the normalisation Django applies
    to an address: here, the lower-case domain of one address. *)
Definition auth : Auth :=
  {| normalize_email := fun e => if String.eqb e "Ann@EXAMPLE.org" then "Ann@example.org" else e;
     normalize_username := fun n => n;
     make_password := fun raw => "plain$" +:+ raw;
     check_password := fun raw encoded => String.eqb encoded ("plain$" +:+ raw) |}.

(** A table in which the compatibility form of a typed name is taken:
    NFKC turns the ligature of "ﬁsh" into "fi". *)
Definition auth_nfkc : Auth :=
  {| normalize_email := fun e => e;
     normalize_username := fun n => if String.eqb n "ﬁsh" then "fish" else n;
     make_password := fun raw => "plain$" +:+ raw;
     check_password := fun raw encoded => String.eqb encoded ("plain$" +:+ raw) |}.

Definition fish : User.t :=
  {| User.id := 0; User.username := "fish"; User.email := "fish@example.org";
     User.password := "plain$secret"; User.is_staff := false; User.is_active := true |}.

Definition ann : User.t :=
  {| User.id := 0; User.username := "ann"; User.email := "Ann@example.org";
     User.password := "plain$secret"; User.is_staff := false; User.is_active := true |}.

Definition anonymous_post (fields : list (string * string)) : HttpRequest :=
  {| method := "POST"; POST := list_to_map fields; FILES := ∅; user := None |}.
End AccountFixtures.

(** ** The monad and temporary files *)

Lemma world_eta (w : World) : {| db := db w; tmpfs := tmpfs w |} = w.
Proof. by destruct w. Qed.

Lemma delete_alter_same {V} (f : V -> V) (i : nat) (m : gmap nat V) :
  delete i (alter f i m) = delete i m.
Proof.
  apply map_eq; intros j. destruct (decide (i = j)) as [->|Hne].
  - by rewrite !lookup_delete_eq.
  - by rewrite !lookup_delete_ne, lookup_alter_ne.
Qed.

Lemma tmp_local_ret {A} stem (a : A) : tmp_local stem (ret a).
Proof. by intros w. Qed.

Lemma tmp_local_lift {A} stem (r : result A) : tmp_local stem (lift r).
Proof. by intros w. Qed.

Lemma tmp_local_call {A} stem (lib : TmpDir -> string -> result A) tmp :
  tmp_local stem (call lib tmp).
Proof. by intros w. Qed.

Lemma tmp_local_write stem suffix chunk : tmp_local stem (tmp_write (stem, suffix) chunk).
Proof.
  intros w; unfold tmp_write, world, trace; simpl.
  split_and!; [done | apply delete_alter_same | done].
Qed.

Lemma tmp_local_bind {A B} stem (m : M A) (f : A -> M B) :
  tmp_local stem m -> (forall a, tmp_local stem (f a)) -> tmp_local stem (bind m f).
Proof.
  intros Hm Hf w. destruct (Hm w) as (Hdb & Hfs & Ht).
  unfold bind. destruct (m w) as [[[a|e] w1] t1]; unfold world, trace in *; simpl in *.
  - destruct (Hf a w1) as (Hdb' & Hfs' & Ht').
    destruct (f a w1) as [[r w2] t2]; unfold world, trace in *; simpl in *.
    rewrite Hdb', Hfs', Ht, Ht'. by split_and!.
  - done.
Qed.

Lemma tmp_local_for_each {A} stem (xs : list A) (f : A -> M unit) :
  (forall x, tmp_local stem (f x)) -> tmp_local stem (for_each xs f).
Proof.
  intros Hf. induction xs as [|x xs IH]; simpl.
  - apply tmp_local_ret.
  - apply tmp_local_bind; auto.
Qed.

Lemma fresh_stem_free (fs : TmpDir) : fs !! fresh (dom fs) = None.
Proof. apply not_elem_of_dom, is_fresh. Qed.

(** A temporary file of a [with] block is gone when the block is left,
    whether it ends normally or by an exception. *)
Lemma quiet_with_NamedTemporaryFile {A} suffix (body : TmpFile -> M A) :
  (forall tmp, tmp_local tmp.1 (body tmp)) -> quiet (with_NamedTemporaryFile suffix body).
Proof.
  intros Hbody w.
  unfold with_NamedTemporaryFile, bind, mkstemp, finally, unlink.
  set (stem := fresh (dom (tmpfs w))).
  destruct (Hbody (stem, suffix) (set_tmpfs (insert stem (suffix, [])) w))
    as (Hdb & Hfs & Ht).
  destruct (body (stem, suffix) (set_tmpfs (insert stem (suffix, [])) w))
    as [[r w1] t1]; unfold world, trace, set_tmpfs in *; simpl in *.
  rewrite Hdb, Hfs, Ht, delete_insert_id by apply fresh_stem_free.
  split; [apply world_eta | done].
Qed.

(** ** The duration prober *)

Section Prober.
Context `{L : Libs}.

Lemma quiet_lift {A} (r : result A) : quiet (lift r).
Proof. by intros w. Qed.

Lemma quiet_moviepy f ext d : quiet (moviepy_duration f ext d).
Proof.
  apply quiet_with_NamedTemporaryFile; intros [stem suffix]; simpl.
  apply tmp_local_bind; [apply tmp_local_for_each; intros; apply tmp_local_write|].
  intros _. apply tmp_local_bind; [apply tmp_local_call|].
  intros [x|]; [destruct (PyFloat.ltb _ _)|]; apply tmp_local_ret.
Qed.

Lemma quiet_ffmpeg f ext d : quiet (ffmpeg_duration f ext d).
Proof.
  apply quiet_with_NamedTemporaryFile; intros [stem suffix]; simpl.
  apply tmp_local_bind; [apply tmp_local_for_each; intros; apply tmp_local_write|].
  intros _. apply tmp_local_bind; [apply tmp_local_call|].
  intros streams. apply tmp_local_bind; [apply tmp_local_lift|].
  intros [info|]; [|apply tmp_local_ret].
  destruct (negb _); [|apply tmp_local_ret].
  destruct (info !! "duration"); [|apply tmp_local_ret].
  apply tmp_local_bind; [apply tmp_local_lift|]. intros; apply tmp_local_ret.
Qed.

Lemma quiet_opencv f ext d : quiet (opencv_duration f ext d).
Proof.
  apply quiet_with_NamedTemporaryFile; intros [stem suffix]; simpl.
  apply tmp_local_bind; [apply tmp_local_for_each; intros; apply tmp_local_write|].
  intros _. apply tmp_local_bind; [apply tmp_local_call|].
  intros cap. apply tmp_local_lift.
Qed.

Lemma quiet_method_body s f : quiet (method_body s f).
Proof.
  destruct s; simpl;
    [apply quiet_moviepy | apply quiet_ffmpeg | apply quiet_opencv | apply quiet_lift].
Qed.

(** One method of the cascade: whatever its body does, the method ends
    normally, the world is as before and the attempt is recorded. *)
Lemma strategy_run s (body : M (option float)) w :
  quiet body ->
  strategy s None body w = (Ok (produced (res (body w))), w, [Attempt s (res (body w))]).
Proof.
  intros Hq. destruct (Hq w) as [Hw Ht].
  unfold strategy, try_except, bind, emit, ret.
  destruct (body w) as [[[d|e] w1] t1]; unfold world, trace, res in *; simpl in *;
    by subst.
Qed.

(** The prober is the cascade over the four strategies, every one run in
    the world the prober was called in. *)
Lemma prober_cascade f w :
  _get_video_duration_seconds f w
  = (Ok (cascade (outcome f w) strategies).1, w, (cascade (outcome f w) strategies).2).
Proof.
  unfold _get_video_duration_seconds, try_except, bind at 1.
  pose proof (strategy_run MoviePy _ w (quiet_method_body MoviePy f)) as H1.
  pose proof (strategy_run FFmpeg _ w (quiet_method_body FFmpeg f)) as H2.
  pose proof (strategy_run OpenCV _ w (quiet_method_body OpenCV f)) as H3.
  pose proof (strategy_run FileSize _ w (quiet_method_body FileSize f)) as H4.
  unfold method_body in H1, H2, H3, H4. cbv zeta in *.
  rewrite H1. unfold strategies, cascade, outcome, method_body. cbv zeta.
  destruct (produced (res (moviepy_duration f _ None w))) as [d1|]; [done|].
  unfold bind at 1. rewrite H2.
  destruct (produced (res (ffmpeg_duration f _ None w))) as [d2|]; [done|].
  unfold bind at 1. rewrite H3.
  destruct (produced (res (opencv_duration f _ None w))) as [d3|]; [done|].
  unfold bind at 1. rewrite H4.
  by destruct (produced (res (lift (file_size_duration f None) w))) as [d4|].
Qed.

(** The result of a [with] block is the result of its body, run on the new,
    empty file. *)
Lemma with_NamedTemporaryFile_res {A} suffix (body : TmpFile -> M A) w :
  let stem := fresh (dom (tmpfs w)) in
  res (with_NamedTemporaryFile suffix body w)
  = res (body (stem, suffix) (set_tmpfs (insert stem (suffix, [])) w)).
Proof.
  unfold with_NamedTemporaryFile, bind, mkstemp, finally, unlink; simpl.
  by destruct (body _ _) as [[r w1] t1].
Qed.

(** Writing the chunks of an upload appends their concatenation. *)
Lemma for_each_tmp_write stem suffix chunks w data :
  tmpfs w !! stem = Some (suffix, data) ->
  for_each chunks (tmp_write (stem, suffix)) w
  = (Ok tt, set_tmpfs (insert stem (suffix, data ++ concat chunks)) w, []).
Proof.
  revert w data. induction chunks as [|c cs IH]; intros w data Hw; simpl.
  - unfold ret, set_tmpfs. rewrite app_nil_r, insert_id by done. by rewrite world_eta.
  - unfold bind, tmp_write at 1.
    rewrite (IH _ (data ++ c)); unfold set_tmpfs; simpl.
    + rewrite <- app_assoc. do 3 f_equal.
      apply map_eq; intros j. destruct (decide (stem = j)) as [->|Hne].
      * by rewrite !lookup_insert_eq.
      * by rewrite !lookup_insert_ne, lookup_alter_ne.
    + by rewrite lookup_alter_eq, Hw.
Qed.



(** C6. The prober returns normally on every upload and in every world,
    whatever the decoders do: its result is never an exception.  When none
    of the four strategies produces a duration, by failing or otherwise,
    all four have been tried and the result is [None]. *)
Theorem prober_never_raises (f : UploadedFile) (w : World) :
  let run := _get_video_duration_seconds f w in
  (exists d, res run = Ok d)
  /\ ((forall s, produced (outcome f w s) = None) ->
        res run = Ok None /\ attempts (trace run) = strategies).
Proof.
  intros run. subst run. rewrite prober_cascade. unfold res, trace; simpl.
  split; [by eexists|].
  intros Hnone. unfold strategies; simpl.
  rewrite (Hnone MoviePy), (Hnone FFmpeg), (Hnone OpenCV), (Hnone FileSize). done.
Qed.

(** A strictly positive float is not a zero of either sign. *)
Lemma positive_not_zero (x : float) :
  PyFloat.ltb PyFloat.zero x = true -> PyFloat.eqb x PyFloat.zero = false.
Proof. destruct x as [[]|[]| |[] m e]; vm_compute; congruence. Qed.

(** Method 3 hands the capture it opened on its temporary copy to
    [capture_duration]. *)
Lemma opencv_outcome f w :
  let ext := file_extension_for f in
  let stem := fresh (dom (tmpfs w)) in
  outcome f w OpenCV
  = match cv2_VideoCapture (<[stem := (ext, concat (uf_chunks f))]> (tmpfs w))
                           (tmp_name (stem, ext)) with
    | Ok cap => capture_duration cap None
    | Raise e => Raise e
    end.
Proof.
  intros ext stem. unfold outcome, method_body, opencv_duration. cbv zeta.
  rewrite with_NamedTemporaryFile_res. cbv zeta. fold ext stem.
  unfold bind at 1.
  rewrite (for_each_tmp_write _ _ _ _ []) by (simpl; apply lookup_insert_eq).
  unfold bind, call, lift, set_tmpfs; simpl. rewrite insert_insert_eq.
  by destruct (cv2_VideoCapture _ _) as [cap|e].
Qed.

(** C8. The frame-counting strategy yields the frame count divided by
    the frame rate exactly when the capture is opened and the frame rate
    and the frame count are both strictly positive; the divisor is then
    not zero and the division does not raise.  In every other case it
    yields no duration.  This is what the third method of the prober
    yields on the capture OpenCV opens on its copy of the upload: after
    two methods that yielded none, the quotient is the result of the
    prober, and when the third yields none too the prober goes on to the
    file-size strategy. *)
Theorem frame_rate_division_guarded (f : UploadedFile) (w : World) :
  let guard (cap : Capture) :=
    isOpened cap
    && PyFloat.ltb PyFloat.zero (CAP_PROP_FPS cap)
    && PyFloat.ltb PyFloat.zero (CAP_PROP_FRAME_COUNT cap) in
  let quotient (cap : Capture) :=
    PyFloat.div (CAP_PROP_FRAME_COUNT cap) (CAP_PROP_FPS cap) in
  let ext := file_extension_for f in
  let stem := fresh (dom (tmpfs w)) in
  let opened := cv2_VideoCapture (<[stem := (ext, concat (uf_chunks f))]> (tmpfs w))
                                 (tmp_name (stem, ext)) in
  let run := _get_video_duration_seconds f w in
  (forall cap,
     capture_duration cap None = Ok (if guard cap then Some (quotient cap) else None))
  /\ (forall cap, guard cap = true ->
        PyFloat.eqb (CAP_PROP_FPS cap) PyFloat.zero = false
        /\ PyFloat.truediv (CAP_PROP_FRAME_COUNT cap) (CAP_PROP_FPS cap)
           = Ok (quotient cap))
  /\ outcome f w OpenCV
     = match opened with
       | Ok cap => Ok (if guard cap then Some (quotient cap) else None)
       | Raise e => Raise e
       end
  /\ (forall cap,
        produced (outcome f w MoviePy) = None ->
        produced (outcome f w FFmpeg) = None ->
        opened = Ok cap ->
        if guard cap then
          res run = Ok (Some (quotient cap))
          /\ attempts (trace run) = [MoviePy; FFmpeg; OpenCV]
        else
          res run = Ok (produced (outcome f w FileSize))
          /\ attempts (trace run) = strategies).
Proof.
  intros guard quotient ext stem opened run.
  assert (Hdiv : forall cap, guard cap = true ->
            PyFloat.eqb (CAP_PROP_FPS cap) PyFloat.zero = false
            /\ PyFloat.truediv (CAP_PROP_FRAME_COUNT cap) (CAP_PROP_FPS cap)
               = Ok (quotient cap)).
  { intros cap Hguard. subst guard. cbv beta in Hguard.
    apply andb_true_iff in Hguard as [Hguard _].
    apply andb_true_iff in Hguard as [_ Hfps].
    pose proof (positive_not_zero _ Hfps) as Hnz.
    split; [done|]. unfold PyFloat.truediv. by rewrite Hnz. }
  assert (Hcap : forall cap,
            capture_duration cap None
            = Ok (if guard cap then Some (quotient cap) else None)).
  { intros cap. destruct (guard cap) eqn:Hguard.
    - destruct (Hdiv cap Hguard) as [_ Hquotient].
      subst guard. cbv beta in Hguard.
      apply andb_true_iff in Hguard as [Hguard Hcount].
      apply andb_true_iff in Hguard as [Hopened Hfps].
      unfold capture_duration. by rewrite Hopened, Hfps, Hcount, Hquotient.
    - subst guard. cbv beta in Hguard. unfold capture_duration.
      destruct (isOpened cap); [|done]. cbn [andb] in Hguard. by rewrite Hguard. }
  assert (Hout : outcome f w OpenCV
                 = match opened with
                   | Ok cap => Ok (if guard cap then Some (quotient cap) else None)
                   | Raise e => Raise e
                   end).
  { rewrite opencv_outcome. cbv zeta. fold ext stem opened.
    destruct opened as [cap|e]; [apply Hcap|done]. }
  split_and!; [done | done | done |].
  intros cap E1 E2 Hopened. rewrite Hopened in Hout.
  subst run. rewrite prober_cascade. unfold strategies, res, trace, attempts.
  cbn [cascade fst snd]. rewrite E1, E2, Hout. cbn [produced].
  destruct (guard cap); [done|].
  by destruct (produced (outcome f w FileSize)).
Qed.

(** C9. The file-size strategy estimates the duration as the size divided
    by 1024 * 1024, one second per megabyte, and keeps the estimate exactly
    when it is strictly above 0 and at most 10; otherwise it yields
    nothing.  When the first three strategies yielded nothing, that is the
    result of the prober: the estimate inside the bound, [None] outside. *)
Theorem file_size_estimate_bounds (f : UploadedFile) (w : World) :
  let estimated_duration :=
    PyFloat.div (PyFloat.of_int (uf_size f)) (PyFloat.of_int 1048576) in
  let kept :=
    if PyFloat.ltb PyFloat.zero estimated_duration
       && PyFloat.leb estimated_duration (PyFloat.of_int 10)
    then Some estimated_duration else None in
  file_size_duration f None = Ok kept
  /\ outcome f w FileSize = Ok kept
  /\ (produced (outcome f w MoviePy) = None ->
      produced (outcome f w FFmpeg) = None ->
      produced (outcome f w OpenCV) = None ->
        res (_get_video_duration_seconds f w) = Ok kept).
Proof.
  intros est kept.
  assert (Hsize : file_size_duration f None = Ok kept).
  { unfold file_size_duration, PyFloat.int_truediv. simpl.
    fold est. subst kept. by destruct (_ && _). }
  assert (Hout : outcome f w FileSize = Ok kept) by (unfold outcome; simpl; by rewrite Hsize).
  split_and!; [done | done |].
  intros E1 E2 E3. rewrite prober_cascade. unfold strategies, res; simpl.
  rewrite E1, E2, E3, Hout; simpl. by destruct kept.
Qed.

End Prober.

(** ** The ingestion view *)

Section ReportIssue.
Context `{L : Libs}.

Lemma save_uploaded_file_temp_run f w :
  save_uploaded_file_temp f w = (Ok (saved_path f w), saved f w, []).
Proof.
  unfold save_uploaded_file_temp, saved, saved_path. cbv zeta.
  set (ext := PyStr.or_ _ _). set (stem := fresh (dom (tmpfs w))).
  unfold bind at 1, mkstemp. fold stem.
  unfold bind at 1.
  rewrite (for_each_tmp_write _ _ _ _ []) by (simpl; apply lookup_insert_eq).
  unfold ret, set_tmpfs; simpl. by rewrite insert_insert_eq.
Qed.

(** [save] of one column on the last row: the column receives what
    [pre_save] returns, and a refusal of the storage leaves the world as
    it was. *)
Lemma save_last_row (instance row : gmap string value) (f : string) rows fs :
  instance !! "id" = Some (VInt (Z.of_nat (length rows))) ->
  IssueReport.is_field f = true ->
  let w := {| db := rows ++ [row]; tmpfs := fs |} in
  IssueReport.save instance [f] w
  = match IssueReport.pre_save w f (default VNone (instance !! f)) with
    | Ok v => (Ok tt, {| db := rows ++ [<[f := v]> row]; tmpfs := fs |}, [])
    | Raise e => (Raise e, w, [])
    end.
Proof.
  intros Hid Hf w. unfold IssueReport.save. cbn [forallb]. rewrite Hf, Hid.
  cbn [andb negb IssueReport.pre_save_all].
  destruct (IssueReport.pre_save w f _) as [v|e]; [|done].
  subst w. cbn [db tmpfs foldr fst snd].
  rewrite Nat2Z.id, list_lookup_middle by done.
  do 3 f_equal. rewrite insert_app_r_alt by lia. by rewrite Nat.sub_diag.
Qed.

Lemma row_of_insert title result pk row f v :
  f = "image" \/ f = "video" ->
  row_of title result pk row -> row_of title result pk (<[f := v]> row).
Proof.
  intros Hf (H1 & H2 & H3 & H4 & H5). unfold row_of.
  destruct Hf as [-> | ->]; by rewrite !lookup_insert_ne.
Qed.

(** The media steps end normally or by an exception; either way the last
    row is still the one created, with at most its [image] and [video]
    columns written. *)
Lemma attach_video_run video_file result issue title rows row fs :
  issue !! "id" = Some (VInt (Z.of_nat (length rows))) ->
  row_of title result (length rows) row ->
  exists r row',
    attach_video video_file result issue {| db := rows ++ [row]; tmpfs := fs |}
    = (r, {| db := rows ++ [row']; tmpfs := fs |}, [])
    /\ row_of title result (length rows) row'
    /\ attach_outcome r.
Proof.
  intros Hid Hrow. unfold attach_video, attach_outcome.
  destruct (attached video_file) as [video|]; [|eexists _, _; by eauto 6].
  unfold bind at 1, content_type_startswith.
  destruct (uf_content_type video) as [ct|]; [|eexists _, _; by eauto 8].
  unfold ret at 1. destruct (negb _); [eexists _, _; by eauto 6|].
  unfold bind. rewrite save_last_row; [|by rewrite !lookup_insert_ne|done].
  cbv zeta. destruct (IssueReport.pre_save _ "video" _) as [v|e].
  - eexists _, _; split_and!; [reflexivity| |by eauto]. apply row_of_insert; auto.
  - eexists _, _; split_and!; [reflexivity|done|by eauto 8].
Qed.

Lemma attach_image_run image_file video_file result issue title rows row fs :
  issue !! "id" = Some (VInt (Z.of_nat (length rows))) ->
  row_of title result (length rows) row ->
  exists r row',
    attach_image image_file video_file result issue {| db := rows ++ [row]; tmpfs := fs |}
    = (r, {| db := rows ++ [row']; tmpfs := fs |}, [])
    /\ row_of title result (length rows) row'
    /\ attach_outcome r.
Proof.
  intros Hid Hrow. unfold attach_image.
  destruct (attached image_file) as [image|]; [|by apply attach_video_run].
  unfold bind at 1, content_type_startswith.
  destruct (uf_content_type image) as [ct|];
    [|eexists _, _; unfold attach_outcome; by eauto 8].
  unfold ret at 1. destruct (negb _);
    [eexists _, _; unfold attach_outcome; by eauto 6|].
  unfold bind. rewrite save_last_row; [|by rewrite !lookup_insert_ne|done].
  cbv zeta. destruct (IssueReport.pre_save _ "image" _) as [v|e];
    [|eexists _, _; unfold attach_outcome; by eauto 8].
  edestruct (attach_video_run video_file result) as (r & row' & -> & Hrow' & Hr);
    [| |by eexists _, _].
  - by rewrite !lookup_insert_ne.
  - apply row_of_insert; [auto | exact Hrow].
Qed.

(** The record [create_issue] inserts carries the severity of the
    detection result and the form fields, and has no column for the
    annotated output: [save] writes the listed column only.  The block
    always ends normally, records nothing and leaves the temporary
    directory alone. *)
Lemma create_issue_run request title category description location
    image_file video_file result w :
  exists response row,
    create_issue request title category description location
                 image_file video_file result w
    = (Ok response, {| db := db w ++ [row]; tmpfs := tmpfs w |}, [])
    /\ row_of title result (length (db w)) row
    /\ created_response response.
Proof.
  unfold create_issue, try_except, bind at 1, IssueReport.objects_create.
  cbn [forallb fst snd foldr].
  replace (IssueReport.is_field "reporter") with true by reflexivity.
  replace (IssueReport.is_field "title") with true by reflexivity.
  replace (IssueReport.is_field "category") with true by reflexivity.
  replace (IssueReport.is_field "description") with true by reflexivity.
  replace (IssueReport.is_field "location") with true by reflexivity.
  replace (IssueReport.is_field "severity") with true by reflexivity.
  cbn [andb].
  set (row0 := <["id" := _]> _).
  assert (Hrow0 : row_of title result (length (db w)) row0).
  { subst row0. unfold row_of.
    rewrite lookup_insert_eq, !(lookup_insert_ne _ "id") by done.
    rewrite !(lookup_insert_ne _ "reporter") by done.
    rewrite lookup_insert_eq.
    rewrite !(lookup_insert_ne _ "title"), !(lookup_insert_ne _ "category"),
      !(lookup_insert_ne _ "description"), !(lookup_insert_ne _ "location") by done.
    rewrite lookup_insert_eq, !(lookup_insert_ne _ "severity") by done.
    by split_and!. }
  clearbody row0.
  destruct (attach_image_run image_file video_file result row0 title
              (db w) row0 (tmpfs w)) as (r & row' & -> & Hrow' & Hr);
    [apply Hrow0 | exact Hrow0 |].
  unfold created_response.
  destruct Hr as [-> | [-> | [-> | [e ->]]]]; eexists _, _; by eauto 8.
Qed.

(** The duration gate: the prober runs on an attached video and changes
    nothing; a duration above six seconds ends the request, any other
    outcome goes on to [create_issue]. *)
Lemma validate_and_create_run request title category description location
    image_file video_file result w :
  validate_and_create request title category description location
                      image_file video_file result w
  = let create := create_issue request title category description location
                               image_file video_file result w in
    match attached video_file with
    | Some video =>
        let probe := cascade (outcome video w) strategies in
        match probe.1 with
        | Some d =>
            if PyFloat.ltb (PyFloat.of_int 6) d then
              (Ok (report_issue_html
                     ("Video must be 6 seconds or less. Your video is "
                      +:+ format_1f d +:+ " seconds long.")), w, probe.2)
            else (res create, world create, probe.2 ++ trace create)
        | None => (res create, world create, probe.2 ++ trace create)
        end
    | None => create
    end.
Proof.
  unfold validate_and_create. cbv zeta.
  destruct (attached video_file) as [video|]; [|done].
  unfold bind. rewrite prober_cascade.
  destruct ((cascade (outcome video w) strategies).1) as [d|].
  - destruct (PyFloat.ltb _ d).
    + unfold ret. by rewrite app_nil_r.
    + by destruct (create_issue _ _ _ _ _ _ _ _ w) as [[r w'] t].
  - by destruct (create_issue _ _ _ _ _ _ _ _ w) as [[r w'] t].
Qed.

(** The view, path by path. *)
Lemma report_issue_run request w :
  report_issue request w
  = if negb (String.eqb (method request) "POST") then
      (Ok (Render "civilian/report_issue.html" []), w, [])
    else if negb (fields_present request) then
      (Ok (report_issue_html "All fields are required."), w, [])
    else
      match classified_upload request with
      | None => (Ok (Redirect "civilian_view_reports"), w, [])
      | Some (f, folder) =>
          let ev := detect_event (saved_path f w) folder (detection f folder w) in
          match detection f folder w with
          | Raise e => (Raise e, saved f w, [ev])
          | Ok result =>
              if (boxes result =? 0)%Z then
                (Ok (Redirect "civilian_view_reports"), saved f w, [ev])
              else
                let rest :=
                  validate_and_create request
                    (PyStr.strip (POST_get request "title"))
                    (PyStr.strip (POST_get request "category"))
                    (PyStr.strip (POST_get request "description"))
                    (PyStr.strip (POST_get request "location"))
                    (FILES request !! "image") (FILES request !! "video")
                    result (saved f w) in
                (res rest, world rest, ev :: trace rest)
          end
      end.
Proof.
  unfold report_issue, fields_present, classified_upload. cbv zeta.
  destruct (String.eqb (method request) "POST"); [|done]. simpl negb at 1. cbv iota.
  destruct (negb _); [done|].
  assert (Hstep : forall f folder,
    (temp_path <- save_uploaded_file_temp f ;;
     result <- classify temp_path (os_path.join APP_ROOTs [".."; "media"; "issues"; folder]) ;;
     if (boxes result =? 0)%Z then ret (Redirect "civilian_view_reports")
     else validate_and_create request
            (PyStr.strip (POST_get request "title"))
            (PyStr.strip (POST_get request "category"))
            (PyStr.strip (POST_get request "description"))
            (PyStr.strip (POST_get request "location"))
            (FILES request !! "image") (FILES request !! "video") result) w
    = let ev := detect_event (saved_path f w) folder (detection f folder w) in
      match detection f folder w with
      | Raise e => (Raise e, saved f w, [ev])
      | Ok result =>
          if (boxes result =? 0)%Z then
            (Ok (Redirect "civilian_view_reports"), saved f w, [ev])
          else
            let rest :=
              validate_and_create request
                (PyStr.strip (POST_get request "title"))
                (PyStr.strip (POST_get request "category"))
                (PyStr.strip (POST_get request "description"))
                (PyStr.strip (POST_get request "location"))
                (FILES request !! "image") (FILES request !! "video")
                result (saved f w) in
            (res rest, world rest, ev :: trace rest)
      end).
  { intros f folder. unfold bind at 1. rewrite save_uploaded_file_temp_run.
    unfold bind, classify. fold (detection f folder w).
    fold (detect_event (saved_path f w) folder (detection f folder w)).
    destruct (detection f folder w) as [result|e]; [|done].
    destruct (boxes result =? 0)%Z; [done|].
    by destruct (validate_and_create _ _ _ _ _ _ _ _ _) as [[r w'] t]. }
  destruct (attached (FILES request !! "image")) as [image|]; [apply Hstep|].
  destruct (attached (FILES request !! "video")) as [video|]; [apply Hstep|done].
Qed.

Lemma cascade_attempts_only out ss : Forall is_attempt (cascade out ss).2.
Proof.
  induction ss as [|s ss IH]; simpl; [constructor|].
  destruct (produced (out s)).
  - repeat constructor. by eexists _, _.
  - destruct (cascade out ss) as [d t]; simpl in *. constructor; [by eexists _, _|done].
Qed.

Lemma created_not_rejected response :
  created_response response -> ~ rejected_before_creation response.
Proof.
  unfold created_response, rejected_before_creation, report_issue_html.
  intros [-> | [-> | [-> | [e ->]]]] [Hr | [d Hr]]; simpl in Hr; discriminate.
Qed.

(** After classification the view either stops at the duration gate, with
    the table as it was, or creates exactly one record; it always ends
    normally, calls the classifier no more and leaves the temporary
    directory alone. *)
Lemma validate_and_create_effect request title category description location
    image_file video_file result w :
  let x := validate_and_create request title category description location
                               image_file video_file result w in
  tmpfs (world x) = tmpfs w
  /\ Forall is_attempt (trace x)
  /\ exists response, res x = Ok response
      /\ ((rejected_before_creation response /\ db (world x) = db w)
          \/ (created_response response
              /\ exists row, db (world x) = db w ++ [row]
                             /\ row_of title result (length (db w)) row)).
Proof.
  cbv zeta. rewrite validate_and_create_run. cbv zeta.
  destruct (create_issue_run request title category description location
              image_file video_file result w) as (response & row & -> & Hrow & Hresp).
  destruct (attached video_file) as [video|].
  - pose proof (cascade_attempts_only (outcome video w) strategies) as Hatt.
    destruct ((cascade (outcome video w) strategies).1) as [d|];
      [destruct (PyFloat.ltb (PyFloat.of_int 6) d)|];
      unfold res, world, trace; cbn [fst snd db tmpfs]; rewrite ?app_nil_r.
    + split_and!; [done | done |]. eexists; split; [done|]. left. split; [|done].
      right. by exists d.
    + split_and!; [done | done |]. eexists; split; [done|]. right. eauto.
    + split_and!; [done | done |]. eexists; split; [done|]. right. eauto.
  - unfold res, world, trace; cbn [fst snd db tmpfs].
    split_and!; [done | constructor |]. eexists; split; [done|]. right. eauto.
Qed.

(** C1. On a POST with an image or a video attached, a classification
    result with zero boxes ends the request with a redirect to the reports
    view and with the table of reports unchanged.  Conversely, a request
    that changes the table has a classification result with a non-zero box
    count behind it. *)
Theorem zero_boxes_never_persisted (request : HttpRequest) (w : World) :
  method request = "POST" ->
  is_Some (attached (FILES request !! "image"))
  \/ is_Some (attached (FILES request !! "video")) ->
  let run := report_issue request w in
  (forall file_path model_path output_folder conf r,
      In (Detect file_path model_path output_folder conf (Ok r)) (trace run) ->
      boxes r = 0%Z ->
      res run = Ok (Redirect "civilian_view_reports") /\ db (world run) = db w)
  /\ (db (world run) <> db w ->
      exists file_path model_path output_folder conf r,
        In (Detect file_path model_path output_folder conf (Ok r)) (trace run)
        /\ boxes r <> 0%Z).
Proof.
  intros Hpost Hmedia run. subst run. rewrite report_issue_run, Hpost. simpl negb. cbv iota.
  destruct (negb (fields_present request)); [by split; [intros ? ? ? ? ? []|]|].
  destruct (classified_upload request) as [[f folder]|];
    [|by split; [intros ? ? ? ? ? []|]].
  cbv zeta. destruct (detection f folder w) as [result|e] eqn:Hdet.
  - destruct (boxes result =? 0)%Z eqn:Hboxes.
    + unfold res, world, trace; simpl. by split.
    + apply Z.eqb_neq in Hboxes.
      destruct (validate_and_create_effect request
                  (PyStr.strip (POST_get request "title"))
                  (PyStr.strip (POST_get request "category"))
                  (PyStr.strip (POST_get request "description"))
                  (PyStr.strip (POST_get request "location"))
                  (FILES request !! "image") (FILES request !! "video")
                  result (saved f w)) as (_ & Hatt & _).
      unfold res, world, trace in *; simpl in *. split.
      * intros p mp out conf r [Hev | Hin] Hzero.
        -- unfold detect_event in Hev. injection Hev as _ _ _ _ <-. done.
        -- rewrite Forall_forall in Hatt.
           destruct (Hatt _ (proj2 (list_elem_of_In _ _) Hin)) as (s & r' & Habs).
           discriminate.
      * intros _. unfold detect_event at 1. eexists _, _, _, _, result. split; [by left|done].
  - unfold res, world, trace; simpl. split; [|done].
    intros p mp out conf r [Hev | []] _. unfold detect_event in Hev. discriminate.
Qed.

(** C10. Without an attached image or video the view calls no classifier
    and changes nothing: no record, no temporary file.  On a POST whose
    four text fields, stripped, are non-empty it redirects to the reports
    view. *)
Theorem no_media_no_report (request : HttpRequest) (w : World) :
  attached (FILES request !! "image") = None ->
  attached (FILES request !! "video") = None ->
  let run := report_issue request w in
  world run = w
  /\ trace run = []
  /\ (method request = "POST" -> fields_present request = true ->
        res run = Ok (Redirect "civilian_view_reports")).
Proof.
  intros Himage Hvideo run. subst run. rewrite report_issue_run.
  unfold classified_upload. rewrite Himage, Hvideo.
  destruct (String.eqb (method request) "POST") eqn:Hm; simpl.
  - destruct (fields_present request); simpl; by split_and!.
  - split_and!; [done | done |]. intros Hpost. rewrite Hpost in Hm. discriminate.
Qed.

(** C4. When the view reaches the duration check of an attached video,
    a probed duration strictly above 6.0 seconds ends the request with the
    error page and with the table of reports unchanged.  An unknown
    duration is accepted: the request goes on exactly as after a duration
    that passes the check, into [create_issue], and a record is created. *)
Theorem video_duration_gate (request : HttpRequest) (w : World)
    (f : UploadedFile) (folder : string) (result : DetectionResult)
    (video : UploadedFile) :
  method request = "POST" ->
  fields_present request = true ->
  classified_upload request = Some (f, folder) ->
  detection f folder w = Ok result ->
  boxes result <> 0%Z ->
  attached (FILES request !! "video") = Some video ->
  let probe := _get_video_duration_seconds video (saved f w) in
  let create :=
    create_issue request
      (PyStr.strip (POST_get request "title"))
      (PyStr.strip (POST_get request "category"))
      (PyStr.strip (POST_get request "description"))
      (PyStr.strip (POST_get request "location"))
      (FILES request !! "image") (FILES request !! "video") result (saved f w) in
  let run := report_issue request w in
  (forall d, res probe = Ok (Some d) -> PyFloat.ltb (PyFloat.of_int 6) d = true ->
     res run = Ok (report_issue_html
                     ("Video must be 6 seconds or less. Your video is "
                      +:+ format_1f d +:+ " seconds long."))
     /\ db (world run) = db w)
  /\ (res probe = Ok None ->
      res run = res create /\ world run = world create
      /\ exists response row,
           res run = Ok response
           /\ db (world run) = db w ++ [row]
           /\ row_of (PyStr.strip (POST_get request "title")) result (length (db w)) row)
  /\ (forall d, res probe = Ok (Some d) -> PyFloat.ltb (PyFloat.of_int 6) d = false ->
     res run = res create /\ world run = world create).
Proof.
  intros Hpost Hfields Hup Hdet Hboxes Hvideo probe create run.
  subst probe run. rewrite report_issue_run, Hpost, Hfields, Hup. simpl negb. cbv iota zeta.
  rewrite Hdet. apply Z.eqb_neq in Hboxes. rewrite Hboxes.
  rewrite validate_and_create_run, Hvideo, prober_cascade. cbv zeta. fold create.
  unfold res at 1 3 6. cbn [fst snd].
  destruct ((cascade (outcome video (saved f w)) strategies).1) as [d0|].
  - split_and!.
    + intros d [= <-] Hlong. rewrite Hlong. by unfold res, world.
    + discriminate.
    + intros d [= <-] Hpass. rewrite Hpass. by unfold res, world.
  - split_and!.
    + discriminate.
    + intros _. unfold res at 1, world at 1. cbn [fst snd].
      split_and!; [done | done |].
      subst create.
      destruct (create_issue_run request
                  (PyStr.strip (POST_get request "title"))
                  (PyStr.strip (POST_get request "category"))
                  (PyStr.strip (POST_get request "description"))
                  (PyStr.strip (POST_get request "location"))
                  (FILES request !! "image") (FILES request !! "video")
                  result (saved f w)) as (response & row & -> & Hrow & _).
      by exists response, row.
    + discriminate.
Qed.

(** C3, as the code has it.  On a POST whose classification call raises,
    the view catches nothing: the exception leaves [report_issue], after
    the one call of the classifier, and the table of reports is unchanged.
    Whenever the view answers with the page for missing fields or for a
    video that is too long, the table of reports is unchanged. *)
Theorem classifier_error_propagates (request : HttpRequest) (w : World) :
  method request = "POST" ->
  let run := report_issue request w in
  (forall f folder e,
      fields_present request = true ->
      classified_upload request = Some (f, folder) ->
      detection f folder w = Raise e ->
      res run = Raise e /\ db (world run) = db w /\ detections (trace run) = [Raise e])
  /\ (forall response,
        res run = Ok response -> rejected_before_creation response ->
        db (world run) = db w).
Proof.
  intros Hpost run. subst run. rewrite report_issue_run, Hpost. simpl negb. cbv iota.
  split.
  - intros f folder e -> -> Hdet. simpl negb. cbv iota zeta. by rewrite Hdet.
  - intros response.
    destruct (negb (fields_present request)); [done|].
    destruct (classified_upload request) as [[f folder]|]; [|done].
    cbv zeta. destruct (detection f folder w) as [result|e]; [|done].
    destruct (boxes result =? 0)%Z; [done|].
    destruct (validate_and_create_effect request
                (PyStr.strip (POST_get request "title"))
                (PyStr.strip (POST_get request "category"))
                (PyStr.strip (POST_get request "description"))
                (PyStr.strip (POST_get request "location"))
                (FILES request !! "image") (FILES request !! "video")
                result (saved f w)) as (_ & _ & response' & Hres & Hcase).
    unfold res at 1, world at 1. cbn [fst snd]. rewrite Hres. intros [= <-] Hrej.
    destruct Hcase as [[_ Hdb] | [Hcreated _]]; [done|].
    by destruct (created_not_rejected _ Hcreated).
Qed.

(** C7, as the code has it.  The prober, and each of its methods, leaves
    the world as it found it: every temporary copy made while probing is
    deleted before the call returns, however the decoder ends.  The file
    [save_uploaded_file_temp] stores for the classifier is new, holds the
    chunks of the upload, and is kept; [report_issue] deletes nothing, so
    after a request that reached classification the temporary directory is
    the one [save_uploaded_file_temp] left. *)
Theorem temporary_files_lifetime (request : HttpRequest) (f : UploadedFile) (w : World) :
  world (_get_video_duration_seconds f w) = w
  /\ (forall s, world (method_body s f w) = w)
  /\ (let stem := fresh (dom (tmpfs w)) in
      tmpfs w !! stem = None
      /\ save_uploaded_file_temp f w = (Ok (saved_path f w), saved f w, [])
      /\ tmpfs (saved f w) !! stem
         = Some (PyStr.or_ (os_path.splitext (uf_name f)).2 ".tmp", concat (uf_chunks f)))
  /\ tmpfs (world (report_issue request w))
     = if String.eqb (method request) "POST" && fields_present request then
         match classified_upload request with
         | Some (upload, _) => tmpfs (saved upload w)
         | None => tmpfs w
         end
       else tmpfs w.
Proof.
  split_and!.
  - by rewrite prober_cascade.
  - intros s. apply quiet_method_body.
  - cbv zeta. split_and!.
    + apply fresh_stem_free.
    + apply save_uploaded_file_temp_run.
    + unfold saved, set_tmpfs; simpl. apply lookup_insert_eq.
  - rewrite report_issue_run.
    destruct (String.eqb (method request) "POST"); [|done].
    destruct (fields_present request); [|done]. simpl negb. cbv iota. simpl andb. cbv iota.
    destruct (classified_upload request) as [[upload folder]|]; [|done].
    cbv zeta. destruct (detection upload folder w) as [result|e]; [|done].
    destruct (boxes result =? 0)%Z; [done|].
    destruct (validate_and_create_effect request
                (PyStr.strip (POST_get request "title"))
                (PyStr.strip (POST_get request "category"))
                (PyStr.strip (POST_get request "description"))
                (PyStr.strip (POST_get request "location"))
                (FILES request !! "image") (FILES request !! "video")
                result (saved upload w)) as (Hfs & _).
    exact Hfs.
Qed.

End ReportIssue.

(** ** Concrete runs *)

Section Runs.
Import Fixtures.

(** C2. An image upload with one detected box: the record is created with
    the severity of the detection result and the stored image, and the
    view sets [annotated_image] on the instance, but the saved row has no
    [annotated_image]: [save(update_fields=["image"])] writes the [image]
    column only, and the model declares no such column. *)
Theorem annotated_image_not_saved :
  let run := report_issue (L := libs (Ok one_box))
               (post (<["image" := image_jpg]> ∅)) empty_world in
  res run = Ok (Redirect "civilian_view_reports")
  /\ exists row,
       db (world run) = [row]
       /\ row !! "severity" = Some (VStr "low")
       /\ row !! "image" = Some (VStr "issues/images/a.jpg")
       /\ row !! "annotated_image" = None
       /\ IssueReport.is_field "annotated_image" = false
       /\ IssueReport.is_field "annotated_video" = false.
Proof.
  cbv zeta. split; [by vm_compute|].
  eexists. split; [by vm_compute|]. by vm_compute.
Qed.

Lemma zero_boxes_never_persisted_witness :
  let run := report_issue (L := libs (Ok no_box))
               (post (<["image" := image_jpg]> ∅)) empty_world in
  res run = Ok (Redirect "civilian_view_reports") /\ db (world run) = [].
Proof.
  cbv zeta.
  assert (Hmedia :
    is_Some (attached (FILES (post (<["image" := image_jpg]> ∅)) !! "image"))
    \/ is_Some (attached (FILES (post (<["image" := image_jpg]> ∅)) !! "video"))).
  { left. exists image_jpg. by vm_compute. }
  apply (proj1 (zero_boxes_never_persisted (L := libs (Ok no_box))
                  (post (<["image" := image_jpg]> ∅)) empty_world eq_refl Hmedia)
               "/tmp/tmp0.jpg"
               "/srv/civic_tool/civilian/../ai/utils/best.pt"
               "/srv/civic_tool/civilian/../media/issues/ann_images"
               (PyFloat.of_scaled 1 (-1)) no_box).
  - vm_compute. by left.
  - reflexivity.
Defined.

(** Classification fails: the exception leaves the view.  A file that is
    not an image is turned away with an error page after its record was
    created. *)
Lemma classifier_error_not_rendered :
  let failing := report_issue (L := libs (Raise "ModelUnavailable: best.pt"))
                   (post (<["image" := image_jpg]> ∅)) empty_world in
  let invalid := report_issue (L := libs (Ok one_box))
                   (post (<["image" := document_pdf]> ∅)) empty_world in
  (detections (trace failing) = [Raise "ModelUnavailable: best.pt"]
   /\ res failing = Raise "ModelUnavailable: best.pt"
   /\ forall template context, res failing <> Ok (Render template context))
  /\ (res invalid
      = Ok (report_issue_html "Invalid image file type. Please upload a valid image.")
      /\ length (db (world invalid)) = 1%nat
      /\ db (world invalid) <> db empty_world).
Proof.
  cbv zeta. split; split_and!; try by vm_compute.
Qed.

Lemma classifier_error_propagates_witness :
  let run := report_issue (L := libs (Raise "ModelUnavailable: best.pt"))
               (post (<["image" := image_jpg]> ∅)) empty_world in
  res run = Raise "ModelUnavailable: best.pt"
  /\ db (world run) = []
  /\ detections (trace run) = [Raise "ModelUnavailable: best.pt"].
Proof.
  cbv zeta.
  apply (proj1 (classifier_error_propagates (L := libs (Raise "ModelUnavailable: best.pt"))
                  (post (<["image" := image_jpg]> ∅)) empty_world eq_refl)
               image_jpg "ann_images" "ModelUnavailable: best.pt");
    by vm_compute.
Defined.

Lemma video_duration_gate_witness :
  let run := report_issue (L := libs_clip 7)
               (post (<["video" := video_webm]> ∅)) empty_world in
  res run = Ok (report_issue_html
                  "Video must be 6 seconds or less. Your video is ? seconds long.")
  /\ db (world run) = [].
Proof.
  cbv zeta.
  refine (proj1 (video_duration_gate (L := libs_clip 7)
                  (post (<["video" := video_webm]> ∅)) empty_world
                  video_webm "ann_videos" one_box video_webm
                  eq_refl _ _ eq_refl _ _) (PyFloat.of_int 7) _ _);
    by vm_compute.
Defined.

Lemma no_media_no_report_witness :
  let run := report_issue (L := libs (Ok one_box)) (post ∅) empty_world in
  world run = empty_world
  /\ trace run = []
  /\ res run = Ok (Redirect "civilian_view_reports").
Proof.
  cbv zeta.
  assert (Himage : attached (FILES (post ∅) !! "image") = None) by (by vm_compute).
  assert (Hvideo : attached (FILES (post ∅) !! "video") = None) by (by vm_compute).
  destruct (no_media_no_report (L := libs (Ok one_box)) (post ∅) empty_world
              Himage Hvideo) as (Hw & Ht & Hr).
  split_and!; [exact Hw | exact Ht | apply Hr; by vm_compute].
Defined.

(** Every decoder fails and the file is too large for the heuristic: all
    four strategies are tried and the result is [None]. *)
Lemma prober_never_raises_witness :
  let run := _get_video_duration_seconds (L := libs (Ok one_box))
               (upload "v.webm" "video/webm" 10485761) empty_world in
  res run = Ok None /\ attempts (trace run) = strategies.
Proof.
  cbv zeta.
  apply (proj2 (prober_never_raises (L := libs (Ok one_box))
                  (upload "v.webm" "video/webm" 10485761) empty_world)).
  intros []; by vm_compute.
Defined.

(** The classifier's copy of an upload outlives the request. *)
Lemma classifier_copy_outlives_request :
  let run := report_issue (L := libs (Ok no_box))
               (post (<["image" := image_jpg]> ∅)) empty_world in
  res run = Ok (Redirect "civilian_view_reports")
  /\ tmpfs empty_world !! 0%nat = None
  /\ tmpfs (world run) !! 0%nat = Some (".jpg", [x01; x02; x03])
  /\ tmpfs (world run) <> tmpfs empty_world.
Proof.
  cbv zeta. split_and!; by vm_compute.
Qed.

(** The bound of the file-size heuristic at its edges: ten megabytes are
    kept as 10.0 seconds, one byte more is dropped, and so is an empty
    file. *)
Example file_size_edges :
  file_size_duration (upload "v.webm" "video/webm" 10485760) None
  = Ok (Some (PyFloat.of_int 10))
  /\ file_size_duration (upload "v.webm" "video/webm" 10485761) None = Ok None
  /\ file_size_duration (upload "v.webm" "video/webm" 0) None = Ok None
  /\ file_size_duration (upload "v.webm" "video/webm" 3145728) None
     = Ok (Some (PyFloat.of_int 3)).
Proof. split_and!; by vm_compute. Qed.

(** A capture with a frame rate of zero yields nothing instead of
    dividing. *)
Example capture_zero_fps :
  capture_duration {| isOpened := true; CAP_PROP_FRAME_COUNT := PyFloat.of_int 90;
                      CAP_PROP_FPS := PyFloat.zero |} None = Ok None
  /\ capture_duration {| isOpened := true; CAP_PROP_FRAME_COUNT := PyFloat.of_int 90;
                         CAP_PROP_FPS := PyFloat.of_int 30 |} None
     = Ok (Some (PyFloat.of_int 3)).
Proof. split; by vm_compute. Qed.

End Runs.

(** ** Further properties of the ingestion view *)

Section ReportIssueMore.
Context `{L : Libs}.

Lemma objects_create_run request title category description location result w :
  IssueReport.objects_create
    [ ("reporter", match user request with Some uid => VInt uid | None => VNone end);
      ("title", VStr title);
      ("category", VStr category);
      ("description", VStr description);
      ("location", VStr location);
      ("severity", VStr (severity result)) ] w
  = (Ok (created_row request title category description location result (length (db w))),
     {| db := db w ++ [created_row request title category description location result
                                   (length (db w))];
        tmpfs := tmpfs w |}, []).
Proof.
  unfold IssueReport.objects_create. cbn [forallb fst snd].
  replace (IssueReport.is_field "reporter") with true by reflexivity.
  replace (IssueReport.is_field "title") with true by reflexivity.
  replace (IssueReport.is_field "category") with true by reflexivity.
  replace (IssueReport.is_field "description") with true by reflexivity.
  replace (IssueReport.is_field "location") with true by reflexivity.
  replace (IssueReport.is_field "severity") with true by reflexivity.
  reflexivity.
Qed.

Lemma created_row_id request title category description location result pk :
  created_row request title category description location result pk !! "id"
  = Some (VInt (Z.of_nat pk)).
Proof. unfold created_row. apply lookup_insert_eq. Qed.

Lemma created_row_media request title category description location result pk :
  created_row request title category description location result pk !! "image" = Some VNone
  /\ created_row request title category description location result pk !! "video"
     = Some VNone.
Proof.
  unfold created_row. cbn [foldr fst snd].
  split; by rewrite !lookup_insert_ne by done.
Qed.

(** [create_issue] on an image alone, by the declared content type. *)
Lemma create_issue_image request title category description location
    image_file video_file result w image content_type :
  attached image_file = Some image ->
  attached video_file = None ->
  uf_content_type image = Some content_type ->
  let row := created_row request title category description location result
                         (length (db w)) in
  let created := {| db := db w ++ [row]; tmpfs := tmpfs w |} in
  create_issue request title category description location image_file video_file result w
  = if PyStr.startswith content_type "image/" then
      match storage_save created "issues/images/" image with
      | Ok stored =>
          (Ok (Redirect "civilian_view_reports"),
           {| db := db w ++ [<["image" := VStr stored]> row]; tmpfs := tmpfs w |}, [])
      | Raise e =>
          (Ok (report_issue_html ("Failed to create issue report: " +:+ e)), created, [])
      end
    else
      (Ok (report_issue_html "Invalid image file type. Please upload a valid image."),
       created, []).
Proof.
  intros Himage Hvideo Hct row created.
  unfold create_issue, try_except, bind at 1. rewrite objects_create_run. fold row.
  unfold attach_image. rewrite Himage.
  unfold bind at 1, content_type_startswith. rewrite Hct. unfold ret at 1.
  destruct (PyStr.startswith content_type "image/"); cbn [negb]; [|done].
  unfold bind. rewrite save_last_row;
    [|by rewrite !lookup_insert_ne by done; apply created_row_id|done].
  cbv zeta. rewrite lookup_insert_ne, lookup_insert_eq by done.
  unfold IssueReport.pre_save. cbn [default from_option id].
  replace (IssueReport.field_of "image")
    with (Some (IssueReport.FileField "issues/images/")) by reflexivity.
  fold created. destruct (storage_save created "issues/images/" image) as [stored|e].
  - unfold attach_video. rewrite Hvideo. done.
  - done.
Qed.

(** [create_issue] on a video alone, by the declared content type. *)
Lemma create_issue_video request title category description location
    image_file video_file result w video content_type :
  attached image_file = None ->
  attached video_file = Some video ->
  uf_content_type video = Some content_type ->
  let row := created_row request title category description location result
                         (length (db w)) in
  let created := {| db := db w ++ [row]; tmpfs := tmpfs w |} in
  create_issue request title category description location image_file video_file result w
  = if PyStr.startswith content_type "video/" then
      match storage_save created "issues/videos/" video with
      | Ok stored =>
          (Ok (Redirect "civilian_view_reports"),
           {| db := db w ++ [<["video" := VStr stored]> row]; tmpfs := tmpfs w |}, [])
      | Raise e =>
          (Ok (report_issue_html ("Failed to create issue report: " +:+ e)), created, [])
      end
    else
      (Ok (report_issue_html "Invalid video file type. Please upload a valid video."),
       created, []).
Proof.
  intros Himage Hvideo Hct row created.
  unfold create_issue, try_except, bind at 1. rewrite objects_create_run. fold row.
  unfold attach_image. rewrite Himage. unfold attach_video. rewrite Hvideo.
  unfold bind at 1, content_type_startswith. rewrite Hct. unfold ret at 1.
  destruct (PyStr.startswith content_type "video/"); cbn [negb]; [|done].
  unfold bind. rewrite save_last_row;
    [|by rewrite !lookup_insert_ne by done; apply created_row_id|done].
  cbv zeta. rewrite lookup_insert_ne, lookup_insert_eq by done.
  unfold IssueReport.pre_save. cbn [default from_option id].
  replace (IssueReport.field_of "video")
    with (Some (IssueReport.FileField "issues/videos/")) by reflexivity.
  fold created. destruct (storage_save created "issues/videos/" video) as [stored|e]; done.
Qed.

Lemma detections_attempts_only t : Forall is_attempt t -> detections t = [].
Proof.
  induction 1 as [|ev t (s & r & ->) _ IH]; [done|]. unfold detections in *; simpl. exact IH.
Qed.

Lemma detections_cons_detect file_path model_path output_folder conf r t :
  detections (Detect file_path model_path output_folder conf r :: t) = r :: detections t.
Proof. done. Qed.

(** What the view does once classification has found boxes, for any
    request: the names of the cases of [validate_and_create_effect] at the
    arguments the view passes. *)
Lemma rest_effect request result w' :
  let rest := validate_and_create request
                (PyStr.strip (POST_get request "title"))
                (PyStr.strip (POST_get request "category"))
                (PyStr.strip (POST_get request "description"))
                (PyStr.strip (POST_get request "location"))
                (FILES request !! "image") (FILES request !! "video") result w' in
  tmpfs (world rest) = tmpfs w'
  /\ detections (trace rest) = []
  /\ (exists response, res rest = Ok response)
  /\ (exists rows, db (world rest) = db w' ++ rows /\ (length rows <= 1)%nat).
Proof.
  intros rest. subst rest.
  destruct (validate_and_create_effect request
              (PyStr.strip (POST_get request "title"))
              (PyStr.strip (POST_get request "category"))
              (PyStr.strip (POST_get request "description"))
              (PyStr.strip (POST_get request "location"))
              (FILES request !! "image") (FILES request !! "video") result w')
    as (Hfs & Hatt & response & Hres & Hcase).
  split_and!; [done | by apply detections_attempts_only | by eexists |].
  destruct Hcase as [[_ ->] | [_ (row & -> & _)]].
  - exists []. split; [by rewrite app_nil_r | simpl; lia].
  - exists [row]. split; [done | simpl; lia].
Qed.

(** X1. A request never alters or removes a report that is already in the
    table, and adds at most one. *)
Theorem report_issue_table_grows_by_at_most_one (request : HttpRequest) (w : World) :
  exists rows,
    db (world (report_issue request w)) = db w ++ rows /\ (length rows <= 1)%nat.
Proof.
  rewrite report_issue_run.
  assert (Hsame : exists rows, db w = db w ++ rows /\ (length rows <= 1)%nat).
  { exists []. rewrite app_nil_r. split; [done | simpl; lia]. }
  destruct (negb (String.eqb _ _)); [exact Hsame|].
  destruct (negb (fields_present request)); [exact Hsame|].
  destruct (classified_upload request) as [[f folder]|]; [|exact Hsame].
  cbv zeta. destruct (detection f folder w) as [result|e]; [|exact Hsame].
  destruct (boxes result =? 0)%Z; [exact Hsame|].
  destruct (rest_effect request result (saved f w)) as (_ & _ & _ & Hdb). exact Hdb.
Qed.


(** X3. A request calls the classifier at most once.  When an image is
    attached it is the image that is classified, whether or not a video is
    attached as well; a video is classified only when no image is. *)
Theorem classifier_called_once_image_first (request : HttpRequest) (w : World) :
  let run := report_issue request w in
  (length (detections (trace run)) <= 1)%nat
  /\ (forall image,
        method request = "POST" -> fields_present request = true ->
        attached (FILES request !! "image") = Some image ->
        detections (trace run) = [detection image "ann_images" w])
  /\ (forall video,
        method request = "POST" -> fields_present request = true ->
        attached (FILES request !! "image") = None ->
        attached (FILES request !! "video") = Some video ->
        detections (trace run) = [detection video "ann_videos" w]).
Proof.
  intros run.
  assert (Hrun : forall f folder,
    method request = "POST" -> fields_present request = true ->
    classified_upload request = Some (f, folder) ->
    detections (trace run) = [detection f folder w]).
  { intros f folder Hpost Hfields Hup. subst run.
    rewrite report_issue_run, Hpost, Hfields, Hup. simpl negb. cbv iota zeta.
    destruct (detection f folder w) as [result|e]; [|done].
    destruct (boxes result =? 0)%Z; [done|].
    destruct (rest_effect request result (saved f w)) as (_ & Hdet & _).
    unfold trace at 1, detect_event. cbn [fst snd].
    by rewrite detections_cons_detect, Hdet. }
  split_and!.
  - destruct (String.eqb (method request) "POST") eqn:Hm;
      [apply String.eqb_eq in Hm|subst run; rewrite report_issue_run, Hm; simpl; lia].
    destruct (fields_present request) eqn:Hfields;
      [|subst run; rewrite report_issue_run, Hm, Hfields; simpl; lia].
    destruct (classified_upload request) as [[f folder]|] eqn:Hup.
    + by rewrite (Hrun f folder).
    + subst run. rewrite report_issue_run, Hm, Hfields, Hup. simpl. lia.
  - intros image Hpost Hfields Himage. apply Hrun; [done..|].
    unfold classified_upload. by rewrite Himage.
  - intros video Hpost Hfields Himage Hvideo. apply Hrun; [done..|].
    unfold classified_upload. by rewrite Himage, Hvideo.
Qed.

(** X5. On a POST, a text field that is missing, empty or only whitespace
    gives the page "All fields are required." before anything else
    happens: no file is stored, the classifier is not called, the table is
    untouched, whatever media is attached. *)
Theorem blank_field_rejected_first (request : HttpRequest) (w : World) (key : string) :
  method request = "POST" ->
  In key ["title"; "category"; "description"; "location"] ->
  POST request !! key = None \/ PyStr.strip (POST_get request key) = "" ->
  report_issue request w = (Ok (report_issue_html "All fields are required."), w, []).
Proof.
  intros Hpost Hkey Hblank.
  assert (Hstrip : PyStr.strip (POST_get request key) = "").
  { destruct Hblank as [Hnone | Hempty]; [|done]. unfold POST_get. by rewrite Hnone. }
  rewrite report_issue_run, Hpost. simpl negb. cbv iota.
  assert (Hfields : fields_present request = false).
  { unfold fields_present. simpl in Hkey.
    destruct Hkey as [<- | [<- | [<- | [<- | []]]]]; rewrite Hstrip; simpl;
      rewrite ?andb_false_r; done. }
  by rewrite Hfields.
Qed.

(** The view on a request that reaches classification with a result that
    has boxes: the classifier's event, then the duration check and the
    creation of the record on the world with the stored copy. *)
Lemma report_issue_classified request w f folder result :
  method request = "POST" ->
  fields_present request = true ->
  classified_upload request = Some (f, folder) ->
  detection f folder w = Ok result ->
  boxes result <> 0%Z ->
  let rest := validate_and_create request
                (PyStr.strip (POST_get request "title"))
                (PyStr.strip (POST_get request "category"))
                (PyStr.strip (POST_get request "description"))
                (PyStr.strip (POST_get request "location"))
                (FILES request !! "image") (FILES request !! "video")
                result (saved f w) in
  report_issue request w
  = (res rest, world rest, detect_event (saved_path f w) folder (Ok result) :: trace rest).
Proof.
  intros Hpost Hfields Hup Hdet Hboxes rest.
  rewrite report_issue_run, Hpost, Hfields, Hup. simpl negb. cbv iota zeta.
  rewrite Hdet. apply Z.eqb_neq in Hboxes. by rewrite Hboxes.
Qed.

(** X6. An upload in the image field whose declared content type does not
    start with "image/" is answered with the page for an invalid image,
    but only after the record was created: the table holds the new report,
    with no image. *)
Theorem invalid_image_type_leaves_record (request : HttpRequest) (w : World)
    (image : UploadedFile) (content_type : string) (result : DetectionResult) :
  method request = "POST" ->
  fields_present request = true ->
  attached (FILES request !! "image") = Some image ->
  attached (FILES request !! "video") = None ->
  uf_content_type image = Some content_type ->
  PyStr.startswith content_type "image/" = false ->
  detection image "ann_images" w = Ok result ->
  boxes result <> 0%Z ->
  let row := created_row request
               (PyStr.strip (POST_get request "title"))
               (PyStr.strip (POST_get request "category"))
               (PyStr.strip (POST_get request "description"))
               (PyStr.strip (POST_get request "location"))
               result (length (db w)) in
  report_issue request w
  = (Ok (report_issue_html "Invalid image file type. Please upload a valid image."),
     {| db := db w ++ [row]; tmpfs := tmpfs (saved image w) |},
     [detect_event (saved_path image w) "ann_images" (Ok result)])
  /\ row !! "image" = Some VNone
  /\ row !! "severity" = Some (VStr (severity result)).
Proof.
  intros Hpost Hfields Himage Hvideo Hct Hbad Hdet Hboxes row.
  assert (Hup : classified_upload request = Some (image, "ann_images"))
    by (unfold classified_upload; by rewrite Himage).
  rewrite (report_issue_classified request w image "ann_images" result) by done.
  rewrite validate_and_create_run, Hvideo. cbv zeta.
  rewrite (create_issue_image _ _ _ _ _ _ _ _ _ image content_type) by done.
  rewrite Hbad. split_and!; [done | apply created_row_media |].
  subst row. unfold created_row. cbn [foldr fst snd].
  rewrite !lookup_insert_ne by done. apply lookup_insert_eq.
Qed.

(** X7. An image report that passes the checks: content type starting
    with "image/", boxes found, no video.  The table has one new report:
    pending, with the severity the classifier returned, the stripped title
    and the reporter of the session.  What becomes of the image is the
    answer of the file storage, asked once the report is in the table:
    the name it returns is what the image column receives, and the view
    redirects; when it refuses the upload, the view answers with the page
    of the failure and the report stays, without image.  The video column
    stays empty either way. *)
Theorem image_report_created (request : HttpRequest) (w : World)
    (image : UploadedFile) (content_type : string) (result : DetectionResult) :
  method request = "POST" ->
  fields_present request = true ->
  attached (FILES request !! "image") = Some image ->
  attached (FILES request !! "video") = None ->
  uf_content_type image = Some content_type ->
  PyStr.startswith content_type "image/" = true ->
  detection image "ann_images" w = Ok result ->
  boxes result <> 0%Z ->
  let row := created_row request
               (PyStr.strip (POST_get request "title"))
               (PyStr.strip (POST_get request "category"))
               (PyStr.strip (POST_get request "description"))
               (PyStr.strip (POST_get request "location"))
               result (length (db w)) in
  let created := {| db := db w ++ [row]; tmpfs := tmpfs (saved image w) |} in
  let seen := [detect_event (saved_path image w) "ann_images" (Ok result)] in
  report_issue request w
  = match storage_save created "issues/images/" image with
    | Ok stored =>
        (Ok (Redirect "civilian_view_reports"),
         {| db := db w ++ [<["image" := VStr stored]> row];
            tmpfs := tmpfs (saved image w) |}, seen)
    | Raise e =>
        (Ok (report_issue_html ("Failed to create issue report: " +:+ e)), created, seen)
    end
  /\ row !! "image" = Some VNone
  /\ forall stored last,
       last = row \/ last = <["image" := VStr stored]> row ->
       last !! "video" = Some VNone
       /\ last !! "severity" = Some (VStr (severity result))
       /\ last !! "status" = Some (VStr "pending")
       /\ last !! "title" = Some (VStr (PyStr.strip (POST_get request "title")))
       /\ last !! "reporter"
          = Some (match user request with Some uid => VInt uid | None => VNone end).
Proof.
  intros Hpost Hfields Himage Hvideo Hct Hgood Hdet Hboxes row created seen.
  assert (Hup : classified_upload request = Some (image, "ann_images"))
    by (unfold classified_upload; by rewrite Himage).
  split_and!.
  - rewrite (report_issue_classified request w image "ann_images" result) by done.
    rewrite validate_and_create_run, Hvideo. cbv zeta.
    rewrite (create_issue_image _ _ _ _ _ _ _ _ _ image content_type) by done.
    rewrite Hgood. cbv zeta.
    change (db (saved image w)) with (db w). fold row. fold created.
    by destruct (storage_save created "issues/images/" image).
  - apply created_row_media.
  - assert (Hrow : row !! "video" = Some VNone
                   /\ row !! "severity" = Some (VStr (severity result))
                   /\ row !! "status" = Some (VStr "pending")
                   /\ row !! "title" = Some (VStr (PyStr.strip (POST_get request "title")))
                   /\ row !! "reporter"
                      = Some (match user request with
                              | Some uid => VInt uid | None => VNone end)).
    { subst row. unfold created_row. cbn [foldr fst snd].
      split_and!; rewrite ?lookup_insert_eq, ?lookup_insert_ne by done;
        try done; rewrite ?lookup_insert_eq, ?lookup_insert_ne by done; done. }
    intros stored last [-> | ->]; [done|].
    by rewrite !lookup_insert_ne by done.
Qed.

(** X8. A video report that passes the checks: no image, content type
    starting with "video/", boxes found, and a probed duration that is
    unknown or not above six seconds.  The table has one new report with
    the severity the classifier returned.  What becomes of the video is
    the answer of the file storage, asked once the report is in the
    table: the name it returns is what the video column receives, and the
    view redirects; when it refuses the upload, the view answers with the
    page of the failure and the report stays, without video.  The image
    column stays empty either way, and the prober's attempts follow the
    classifier's call. *)
Theorem video_report_created (request : HttpRequest) (w : World)
    (video : UploadedFile) (content_type : string) (result : DetectionResult)
    (duration : option float) :
  method request = "POST" ->
  fields_present request = true ->
  attached (FILES request !! "image") = None ->
  attached (FILES request !! "video") = Some video ->
  uf_content_type video = Some content_type ->
  PyStr.startswith content_type "video/" = true ->
  detection video "ann_videos" w = Ok result ->
  boxes result <> 0%Z ->
  res (_get_video_duration_seconds video (saved video w)) = Ok duration ->
  gate_passes duration = true ->
  let run := report_issue request w in
  let row := created_row request
               (PyStr.strip (POST_get request "title"))
               (PyStr.strip (POST_get request "category"))
               (PyStr.strip (POST_get request "description"))
               (PyStr.strip (POST_get request "location"))
               result (length (db w)) in
  let created := {| db := db w ++ [row]; tmpfs := tmpfs (saved video w) |} in
  (res run, world run)
  = match storage_save created "issues/videos/" video with
    | Ok stored =>
        (Ok (Redirect "civilian_view_reports"),
         {| db := db w ++ [<["video" := VStr stored]> row];
            tmpfs := tmpfs (saved video w) |})
    | Raise e =>
        (Ok (report_issue_html ("Failed to create issue report: " +:+ e)), created)
    end
  /\ trace run
     = detect_event (saved_path video w) "ann_videos" (Ok result)
       :: trace (_get_video_duration_seconds video (saved video w))
  /\ row !! "video" = Some VNone
  /\ forall stored last,
       last = row \/ last = <["video" := VStr stored]> row ->
       last !! "image" = Some VNone
       /\ last !! "severity" = Some (VStr (severity result)).
Proof.
  intros Hpost Hfields Himage Hvideo Hct Hgood Hdet Hboxes Hprobe Hgate run row created.
  assert (Hup : classified_upload request = Some (video, "ann_videos"))
    by (unfold classified_upload; by rewrite Himage, Hvideo).
  assert (Hrun : (res run, world run)
                 = match storage_save created "issues/videos/" video with
                   | Ok stored =>
                       (Ok (Redirect "civilian_view_reports"),
                        {| db := db w ++ [<["video" := VStr stored]> row];
                           tmpfs := tmpfs (saved video w) |})
                   | Raise e =>
                       (Ok (report_issue_html ("Failed to create issue report: " +:+ e)),
                        created)
                   end
                 /\ trace run
                    = detect_event (saved_path video w) "ann_videos" (Ok result)
                      :: trace (_get_video_duration_seconds video (saved video w))).
  { subst run.
    rewrite (report_issue_classified request w video "ann_videos" result) by done.
    rewrite validate_and_create_run, Hvideo. cbv zeta.
    rewrite prober_cascade in Hprobe |- *.
    remember (cascade (outcome video (saved video w)) strategies) as probe eqn:Hcascade.
    clear Hcascade. destruct probe as [probed attempted].
    unfold res at 1 in Hprobe. cbn [fst snd] in Hprobe |- *.
    injection Hprobe as ->.
    rewrite (create_issue_video _ _ _ _ _ _ _ _ _ video content_type) by done.
    rewrite Hgood. cbv zeta.
    change (db (saved video w)) with (db w). fold row. fold created.
    assert (Hgo : (if match duration with
                      | Some d => PyFloat.ltb (PyFloat.of_int 6) d
                      | None => false
                      end then false else true) = true).
    { destruct duration as [d|]; [|done]. unfold gate_passes in Hgate.
      apply negb_true_iff in Hgate. by rewrite Hgate. }
    destruct duration as [d|].
    - destruct (PyFloat.ltb (PyFloat.of_int 6) d); [discriminate Hgo|].
      destruct (storage_save created "issues/videos/" video);
        unfold res, world, trace; cbn [fst snd]; by rewrite app_nil_r.
    - destruct (storage_save created "issues/videos/" video);
        unfold res, world, trace; cbn [fst snd]; by rewrite app_nil_r. }
  destruct Hrun as [Hres Htrace].
  split_and!; [done | done | apply created_row_media |].
  assert (Hrow : row !! "image" = Some VNone
                 /\ row !! "severity" = Some (VStr (severity result))).
  { subst row. unfold created_row. cbn [foldr fst snd].
    split_and!; rewrite ?lookup_insert_eq, ?lookup_insert_ne by done;
      try done; rewrite ?lookup_insert_eq, ?lookup_insert_ne by done; done. }
  intros stored last [-> | ->]; [done|].
  by rewrite !lookup_insert_ne by done.
Qed.

End ReportIssueMore.

(** ** Further properties of the duration prober *)

Section ProberMore.
Context `{L : Libs}.

(** X9. Every decoder is handed a complete copy of the upload: a file
    that was not in the temporary directory before, named with the suffix
    chosen from the content type, holding the chunks of the upload in
    order.  The three copies have the same name, each being deleted before
    the next is made.  What each method yields is a function of what its
    decoder reports on that copy. *)
Theorem decoders_read_complete_copy (f : UploadedFile) (w : World) :
  let ext := file_extension_for f in
  let stem := fresh (dom (tmpfs w)) in
  let copy := <[stem := (ext, concat (uf_chunks f))]> (tmpfs w) in
  let path := tmp_name (stem, ext) in
  tmpfs w !! stem = None
  /\ outcome f w MoviePy
     = match VideoFileClip copy path with
       | Ok reported => Ok (clip_duration reported)
       | Raise e => Raise e
       end
  /\ outcome f w FFmpeg
     = match ffmpeg_probe copy path with
       | Ok streams => stream_duration streams
       | Raise e => Raise e
       end
  /\ outcome f w OpenCV
     = match cv2_VideoCapture copy path with
       | Ok cap => capture_duration cap None
       | Raise e => Raise e
       end.
Proof.
  intros ext stem copy path.
  split_and!; [apply fresh_stem_free | | | apply opencv_outcome].
  - unfold outcome, method_body, moviepy_duration. cbv zeta.
    rewrite with_NamedTemporaryFile_res. cbv zeta. fold ext stem.
    unfold bind at 1.
    rewrite (for_each_tmp_write _ _ _ _ []) by (simpl; apply lookup_insert_eq).
    unfold bind, call, set_tmpfs; simpl. rewrite insert_insert_eq. fold copy path.
    destruct (VideoFileClip copy path) as [[d|]|e]; simpl; try done.
    by destruct (PyFloat.ltb PyFloat.zero d).
  - unfold outcome, method_body, ffmpeg_duration. cbv zeta.
    rewrite with_NamedTemporaryFile_res. cbv zeta. fold ext stem.
    unfold bind at 1.
    rewrite (for_each_tmp_write _ _ _ _ []) by (simpl; apply lookup_insert_eq).
    unfold bind at 1, call, set_tmpfs; simpl. rewrite insert_insert_eq. fold copy path.
    destruct (ffmpeg_probe copy path) as [streams|e]; [|done].
    unfold stream_duration, bind, lift, ret.
    destruct (first_video_stream streams) as [[info|]|e]; try done.
    destruct (negb (bool_decide (info = ∅))); [|done].
    destruct (info !! "duration") as [text|]; [|done].
    by destruct (py_float text).
Qed.

End ProberMore.

(** X10. The stream method 2 reads is the first one whose codec type is
    "video": every stream before it names another codec type.  Without a
    video stream the search ends with none; a stream without a codec type
    that comes before any video stream ends it with a [KeyError]. *)
Theorem first_video_stream_is_first (streams : list (gmap string string)) :
  match first_video_stream streams with
  | Ok (Some stream) =>
      exists before after,
        streams = before ++ stream :: after
        /\ Forall other_stream before
        /\ stream !! "codec_type" = Some "video"
  | Ok None => Forall other_stream streams
  | Raise e =>
      e = "KeyError: 'codec_type'"
      /\ exists before stream after,
           streams = before ++ stream :: after
           /\ Forall other_stream before
           /\ stream !! "codec_type" = None
  end.
Proof.
  induction streams as [|s rest IH]; simpl; [constructor|].
  destruct (s !! "codec_type") as [codec_type|] eqn:Hc.
  - destruct (String.eqb codec_type "video") eqn:Hv.
    + apply String.eqb_eq in Hv as ->. exists [], rest. by split_and!.
    + apply String.eqb_neq in Hv.
      assert (Hs : other_stream s) by (by exists codec_type).
      destruct (first_video_stream rest) as [[stream|]|e].
      * destruct IH as (before & after & -> & Hbefore & Hvideo).
        exists (s :: before), after. split_and!; [done | by constructor | done].
      * by constructor.
      * destruct IH as (-> & before & stream & after & -> & Hbefore & Hnone).
        split; [done|]. exists (s :: before), stream, after.
        split_and!; [done | by constructor | done].
  - split; [done|]. exists [], s, rest. by split_and!.
Qed.

(** ** The file-size heuristic at the duration check *)

Section SizeHeuristic.
Context `{L : Libs}.

Lemma above_six_positive (x : float) :
  PyFloat.ltb (PyFloat.of_int 6) x = true -> PyFloat.ltb PyFloat.zero x = true.
Proof. destruct x as [[]|[]| |[] m e]; vm_compute; congruence. Qed.

Lemma file_size_outcome f w :
  let estimated_duration :=
    PyFloat.div (PyFloat.of_int (uf_size f)) (PyFloat.of_int 1048576) in
  outcome f w FileSize
  = Ok (if PyFloat.ltb PyFloat.zero estimated_duration
           && PyFloat.leb estimated_duration (PyFloat.of_int 10)
        then Some estimated_duration else None).
Proof.
  intros est. unfold outcome, method_body, lift, res. cbn [fst snd].
  unfold file_size_duration, PyFloat.int_truediv. simpl Z.eqb. cbv iota. fold est.
  by destruct (_ && _).
Qed.

(** X11. When no decoder can read a video, its size alone decides at the
    duration check.  A size whose estimate, one second per megabyte, is
    above 6 and at most 10 is refused as too long, with the estimate in
    the message and no record created; a size whose estimate is above 10,
    or not positive, leaves the duration unknown and the report is
    created. *)
Theorem size_heuristic_decides_undecodable_video (request : HttpRequest) (w : World)
    (f : UploadedFile) (folder : string) (result : DetectionResult)
    (video : UploadedFile) :
  method request = "POST" ->
  fields_present request = true ->
  classified_upload request = Some (f, folder) ->
  detection f folder w = Ok result ->
  boxes result <> 0%Z ->
  attached (FILES request !! "video") = Some video ->
  (forall s, s <> FileSize -> produced (outcome video (saved f w) s) = None) ->
  let estimate := PyFloat.div (PyFloat.of_int (uf_size video)) (PyFloat.of_int 1048576) in
  let run := report_issue request w in
  (PyFloat.ltb (PyFloat.of_int 6) estimate = true ->
   PyFloat.leb estimate (PyFloat.of_int 10) = true ->
     res run = Ok (report_issue_html
                     ("Video must be 6 seconds or less. Your video is "
                      +:+ format_1f estimate +:+ " seconds long."))
     /\ db (world run) = db w)
  /\ (PyFloat.leb estimate (PyFloat.of_int 10) = false
      \/ PyFloat.ltb PyFloat.zero estimate = false ->
     exists response row,
       res run = Ok response /\ db (world run) = db w ++ [row]).
Proof.
  intros Hpost Hfields Hup Hdet Hboxes Hvideo Hnone estimate run. subst run.
  rewrite (report_issue_classified request w f folder result) by done.
  rewrite validate_and_create_run, Hvideo. cbv zeta.
  assert (Hcascade : (cascade (outcome video (saved f w)) strategies).1
                     = produced (outcome video (saved f w) FileSize)).
  { unfold strategies; simpl.
    rewrite (Hnone MoviePy), (Hnone FFmpeg), (Hnone OpenCV) by done.
    by destruct (produced (outcome video (saved f w) FileSize)). }
  rewrite Hcascade, file_size_outcome. cbv zeta. fold estimate. cbn [produced].
  split.
  - intros Hlong Hbound. rewrite (above_six_positive _ Hlong), Hbound. cbn [andb].
    rewrite Hlong. by unfold res, world.
  - intros Hout.
    assert (Hdrop : PyFloat.ltb PyFloat.zero estimate
                    && PyFloat.leb estimate (PyFloat.of_int 10) = false).
    { destruct Hout as [-> | ->]; [apply andb_false_r | done]. }
    rewrite Hdrop.
    destruct (create_issue_run request
                (PyStr.strip (POST_get request "title"))
                (PyStr.strip (POST_get request "category"))
                (PyStr.strip (POST_get request "description"))
                (PyStr.strip (POST_get request "location"))
                (FILES request !! "image") (FILES request !! "video")
                result (saved f w)) as (response & row & -> & _).
    unfold res, world; cbn [fst snd db]. by exists response, row.
Qed.

End SizeHeuristic.

(** ** The pagination of the administrator's list *)

Section Pagination.
Import administrator.
Context {A : Type}.
Implicit Types reports : list A.

(** A page from 1 on is computed without error and is the window of
    twenty reports that starts after the pages before it. *)
Lemma pagination_window reports (page : Z) :
  (1 <= page)%Z ->
  exists p,
    pagination reports page = Ok p
    /\ reports_page p = take 20 (drop (20 * (Z.to_nat page - 1)) reports)
    /\ total_pages p = Z.of_nat (page_count reports)
    /\ has_next p = (page <? Z.of_nat (page_count reports))%Z.
Proof.
  intros Hpage. unfold pagination, queryset_slice. cbv zeta.
  assert (Hstart : ((page - 1) * 20 <? 0)%Z = false) by (apply Z.ltb_ge; lia).
  assert (Hstop : ((page - 1) * 20 + 20 <? 0)%Z = false) by (apply Z.ltb_ge; lia).
  rewrite Hstart, Hstop. cbn [orb].
  assert (Hpages : ((Z.of_nat (length reports) + 20 - 1) / 20)%Z
                   = Z.of_nat (page_count reports)).
  { unfold page_count. rewrite Z2Nat.id; [done|]. apply Z.div_pos; lia. }
  eexists. split; [reflexivity|]. cbn [reports_page total_pages has_next].
  rewrite Hpages. split_and!; [|done|done].
  f_equal; [|f_equal]; lia.
Qed.

Lemma page_items_window reports (i : nat) :
  page_items reports (Z.of_nat (S i)) = take 20 (drop (20 * i) reports).
Proof.
  unfold page_items.
  destruct (pagination_window reports (Z.of_nat (S i))) as (p & -> & -> & _); [lia|].
  do 2 f_equal. lia.
Qed.

Lemma windows_concat reports (n : nat) :
  concat (map (fun i => take 20 (drop (20 * i) reports)) (seq 0 n))
  = take (20 * n) reports.
Proof.
  induction n as [|n IH]; [by rewrite Nat.mul_0_r, take_0|].
  rewrite seq_S, map_app, concat_app, IH. simpl. rewrite app_nil_r, take_take_drop.
  f_equal. lia.
Qed.

Lemma page_count_bounds reports :
  (length reports <= 20 * page_count reports < length reports + 20)%nat.
Proof.
  unfold page_count.
  pose proof (Z.div_mod (Z.of_nat (length reports) + 20 - 1) 20 ltac:(lia)) as Hdiv.
  pose proof (Z.mod_pos_bound (Z.of_nat (length reports) + 20 - 1) 20 ltac:(lia)) as Hmod.
  assert (0 <= (Z.of_nat (length reports) + 20 - 1) / 20)%Z by (apply Z.div_pos; lia).
  lia.
Qed.

(** X12. The pages 1 to [total_pages], in order, show every report
    exactly once: concatenated they are the list of reports.  Each of
    them shows at least one report and at most twenty, and all but the
    last show twenty. *)
Theorem pages_partition_reports reports :
  concat (map (fun i => page_items reports (Z.of_nat i)) (seq 1 (page_count reports)))
  = reports
  /\ (forall i, (1 <= i <= page_count reports)%nat ->
        (1 <= length (page_items reports (Z.of_nat i)) <= 20)%nat)
  /\ (forall i, (1 <= i < page_count reports)%nat ->
        length (page_items reports (Z.of_nat i)) = 20%nat).
Proof.
  pose proof (page_count_bounds reports) as Hbounds.
  split_and!.
  - rewrite <- seq_shift, map_map.
    rewrite (map_ext _ (fun i => take 20 (drop (20 * i) reports)))
      by (intros i; apply page_items_window).
    rewrite windows_concat. apply take_ge. lia.
  - intros [|i] Hi; [lia|]. rewrite page_items_window, length_take, length_drop. lia.
  - intros [|i] Hi; [lia|]. rewrite page_items_window, length_take, length_drop. lia.
Qed.

(** X13. A page number beyond the last page, with an offset the database
    accepts (below 2^63), is not an error: the page is empty and has no
    next page.  This is also what page 1 of an empty list looks like. *)
Theorem page_beyond_last_is_empty reports (page : Z) :
  (Z.of_nat (page_count reports) < page)%Z ->
  ((page - 1) * 20 < 2 ^ 63)%Z ->
  exists p,
    pagination reports page = Ok p
    /\ reports_page p = []
    /\ has_next p = false
    /\ next_page p = None
    /\ total_reports p = Z.of_nat (length reports).
Proof.
  intros Hpage _. pose proof (page_count_bounds reports) as Hbounds.
  unfold pagination, queryset_slice. cbv zeta.
  assert (Hstart : ((page - 1) * 20 <? 0)%Z = false) by (apply Z.ltb_ge; lia).
  assert (Hstop : ((page - 1) * 20 + 20 <? 0)%Z = false) by (apply Z.ltb_ge; lia).
  rewrite Hstart, Hstop. cbn [orb].
  assert (Hpages : ((Z.of_nat (length reports) + 20 - 1) / 20)%Z
                   = Z.of_nat (page_count reports)).
  { unfold page_count. rewrite Z2Nat.id; [done|]. apply Z.div_pos; lia. }
  assert (Hlast : (page <? Z.of_nat (page_count reports))%Z = false)
    by (apply Z.ltb_ge; lia).
  eexists. split; [reflexivity|].
  cbn [reports_page has_next next_page total_reports]. rewrite Hpages, Hlast.
  split_and!; try done. rewrite drop_ge; [by rewrite take_nil|]. lia.
Qed.

(** X14. A page number of zero or below makes the slice start at a
    negative offset, which the queryset refuses: the view raises. *)
Theorem nonpositive_page_raises reports (page : Z) :
  (page <= 0)%Z ->
  pagination reports page = Raise "ValueError: Negative indexing is not supported.".
Proof.
  intros Hpage. unfold pagination, queryset_slice. cbv zeta.
  assert (Hstart : ((page - 1) * 20 <? 0)%Z = true) by (apply Z.ltb_lt; lia).
  by rewrite Hstart.
Qed.

(** X15. The links of a page are sound: when a page announces a next
    page, that page is the following number and shows at least one
    report; when it announces a previous page, that page is the preceding
    number and is computed without error. *)
Theorem page_links_sound reports (page : Z) (p : Pagination A) :
  pagination reports page = Ok p ->
  (has_next p = true ->
     next_page p = Some (page + 1)%Z /\ page_items reports (page + 1) <> [])
  /\ (has_previous p = true ->
     previous_page p = Some (page - 1)%Z
     /\ exists q, pagination reports (page - 1) = Ok q).
Proof.
  intros Hp. pose proof (page_count_bounds reports) as Hbounds.
  assert (Hpage : (1 <= page)%Z).
  { destruct (Z.le_gt_cases page 0) as [Hle|]; [|lia]. exfalso.
    unfold pagination, queryset_slice in Hp. cbv zeta in Hp.
    assert (Hstart : ((page - 1) * 20 <? 0)%Z = true) by (apply Z.ltb_lt; lia).
    rewrite Hstart in Hp. discriminate. }
  destruct (pagination_window reports page Hpage) as (p' & Hp' & _ & _ & Hnext).
  rewrite Hp in Hp'. injection Hp' as <-.
  split.
  - intros Htrue. rewrite Hnext in Htrue. apply Z.ltb_lt in Htrue.
    unfold pagination, queryset_slice in Hp. cbv zeta in Hp.
    destruct (_ || _) in Hp; [discriminate|]. injection Hp as <-.
    cbn [next_page].
    assert (Hpages : ((Z.of_nat (length reports) + 20 - 1) / 20)%Z
                     = Z.of_nat (page_count reports)).
    { unfold page_count. rewrite Z2Nat.id; [done|]. apply Z.div_pos; lia. }
    rewrite Hpages. apply Z.ltb_lt in Htrue as Htrue'. rewrite Htrue'. split; [done|].
    replace (page + 1)%Z with (Z.of_nat (S (Z.to_nat page))) by lia.
    rewrite page_items_window. intros Hnil.
    apply (f_equal length) in Hnil. rewrite length_take, length_drop in Hnil.
    change (length (@nil A)) with 0%nat in Hnil. clear Hnext. lia.
  - intros Htrue.
    unfold pagination, queryset_slice in Hp. cbv zeta in Hp.
    destruct (_ || _) in Hp; [discriminate|]. injection Hp as <-.
    cbn [has_previous previous_page] in *. rewrite Htrue. split; [done|].
    apply Z.ltb_lt in Htrue.
    destruct (pagination_window reports (page - 1)) as (q & Hq & _); [lia|]. by exists q.
Qed.

End Pagination.

(** ** Accounts *)

Section AccountsFacts.
Context `{Au : Auth}.

Lemma filter_none (matches : User.t -> bool) users :
  existsb matches users = false -> List.filter matches users = [].
Proof.
  induction users as [|u users IH]; simpl; [done|].
  destruct (matches u); simpl; [discriminate|]. exact IH.
Qed.

Lemma objects_get_found matches users u :
  objects_get matches users = Found u ->
  In u users /\ matches u = true
  /\ forall v, In v users -> matches v = true -> v = u.
Proof.
  unfold objects_get. intros Hget.
  destruct (List.filter matches users) as [|u' [|u'' rest]] eqn:Hfilter; try discriminate.
  injection Hget as ->.
  assert (Hin : In u (List.filter matches users)) by (rewrite Hfilter; by left).
  apply filter_In in Hin as [Hin Hu]. split_and!; [done | done |].
  intros v Hv Hmatch.
  assert (Hv' : In v (List.filter matches users)) by (by apply filter_In).
  rewrite Hfilter in Hv'. by destruct Hv' as [-> | []].
Qed.

Lemma objects_get_new matches users u :
  existsb matches users = false -> matches u = true ->
  objects_get matches (users ++ [u]) = Found u.
Proof.
  intros Hnone Hu. unfold objects_get.
  rewrite List.filter_app, (filter_none _ _ Hnone). simpl. by rewrite Hu.
Qed.

Lemma objects_get_many matches users :
  (2 <= length (List.filter matches users))%nat ->
  objects_get matches users = MultipleObjectsReturned.
Proof.
  unfold objects_get. destruct (List.filter matches users) as [|u [|v rest]]; simpl; [lia..|done].
Qed.

(** What [register_view] does when every check passes. *)
Lemma register_view_valid request users :
  user request = None ->
  method request = "POST" ->
  let email := PyStr.strip (POST_get request "email") in
  let username := PyStr.strip (POST_get request "username") in
  let password := POST_get request "password" in
  PyStr.truthy email = true ->
  PyStr.truthy username = true ->
  PyStr.truthy password = true ->
  POST_get request "confirm_password" = password ->
  objects_exists (fun u => String.eqb (User.username u) username) users = false ->
  objects_exists (fun u => String.eqb (User.email u) email) users = false ->
  register_view request users
  = match create_user users username email password with
    | Raise e => Raise e
    | Ok (users', new) => Ok (Redirect "home", users', Some new)
    end.
Proof.
  intros Hanon Hpost email username password He Hu Hp Hconfirm Hname Hmail.
  unfold register_view, is_authenticated. rewrite Hanon, Hpost. simpl String.eqb. cbv iota zeta.
  fold email username password. rewrite Hconfirm, He, Hu, Hp. cbn [andb negb].
  rewrite String.eqb_refl. cbn [negb]. by rewrite Hname, Hmail.
Qed.

Lemma register_creates_only_validated_user_aux (request : HttpRequest)
    (users users' : list User.t) (response : HttpResponse) (logged : option User.t) :
  register_view request users = Ok (response, users', logged) ->
  users' <> users \/ logged <> None ->
  let email := PyStr.strip (POST_get request "email") in
  let username := PyStr.strip (POST_get request "username") in
  let password := POST_get request "password" in
  user request = None
  /\ method request = "POST"
  /\ PyStr.truthy email = true
  /\ PyStr.truthy username = true
  /\ PyStr.truthy password = true
  /\ POST_get request "confirm_password" = password
  /\ objects_exists (fun u => String.eqb (User.username u) username) users = false
  /\ objects_exists (fun u => String.eqb (User.email u) email) users = false
  /\ response = Redirect "home"
  /\ exists new,
       users' = users ++ [new]
       /\ logged = Some new
       /\ User.username new = normalize_username username
       /\ User.email new = normalize_email email
       /\ User.password new = make_password password
       /\ User.is_staff new = false
       /\ User.is_active new = true.
Proof.
  intros Hrun Hchanged email username password.
  unfold register_view, is_authenticated in Hrun.
  assert (Hsame : forall r, Ok (r, users, @None User.t) = Ok (response, users', logged) ->
                            False).
  { intros r [= _ <- <-]. by destruct Hchanged. }
  destruct (user request) eqn:Hanon; [by destruct (Hsame _ Hrun)|].
  destruct (String.eqb (method request) "POST") eqn:Hpost; [|by destruct (Hsame _ Hrun)].
  apply String.eqb_eq in Hpost. cbv zeta in Hrun. fold email username password in Hrun.
  destruct (PyStr.truthy email) eqn:He; [|by destruct (Hsame _ Hrun)].
  destruct (PyStr.truthy username) eqn:Hu; [|by destruct (Hsame _ Hrun)].
  destruct (PyStr.truthy password) eqn:Hp; [|by destruct (Hsame _ Hrun)].
  destruct (PyStr.truthy (POST_get request "confirm_password"));
    [|by destruct (Hsame _ Hrun)].
  cbn [andb negb] in Hrun.
  destruct (String.eqb password (POST_get request "confirm_password")) eqn:Hconfirm;
    [|by destruct (Hsame _ Hrun)].
  apply String.eqb_eq in Hconfirm. cbn [negb] in Hrun.
  destruct (objects_exists _ users) eqn:Hname in Hrun; [by destruct (Hsame _ Hrun)|].
  destruct (objects_exists _ users) eqn:Hmail in Hrun; [by destruct (Hsame _ Hrun)|].
  unfold create_user in Hrun. rewrite Hu in Hrun. cbn [negb] in Hrun.
  destruct (objects_exists _ users) in Hrun; [discriminate|].
  injection Hrun as <- <- <-.
  split_and!; try done. eexists. by split_and!.
Qed.

(** X16. [register_view] changes the table of users, or opens a session,
    only for an anonymous POST that passed every check: all four fields
    given, the two passwords equal, the user name and the e-mail address
    not yet in the table as typed.  Then exactly one user is appended,
    with the normalised name and address and the encoded password, neither
    staff nor inactive; the session is opened for that user and the
    response is the redirect to "home". *)
Theorem register_creates_only_validated_user (request : HttpRequest)
    (users users' : list User.t) (response : HttpResponse) (logged : option User.t) :
  register_view request users = Ok (response, users', logged) ->
  users' <> users \/ logged <> None ->
  let email := PyStr.strip (POST_get request "email") in
  let username := PyStr.strip (POST_get request "username") in
  let password := POST_get request "password" in
  user request = None
  /\ method request = "POST"
  /\ PyStr.truthy email = true
  /\ PyStr.truthy username = true
  /\ PyStr.truthy password = true
  /\ POST_get request "confirm_password" = password
  /\ objects_exists (fun u => String.eqb (User.username u) username) users = false
  /\ objects_exists (fun u => String.eqb (User.email u) email) users = false
  /\ response = Redirect "home"
  /\ exists new,
       users' = users ++ [new]
       /\ logged = Some new
       /\ User.username new = normalize_username username
       /\ User.email new = normalize_email email
       /\ User.password new = make_password password
       /\ User.is_staff new = false
       /\ User.is_active new = true.
Proof.
  intros Hrun Hchanged email username password.
  destruct (register_creates_only_validated_user_aux request users users' response logged
              Hrun Hchanged)
    as (Hanon & Hpost & He & Hu & Hp & Hconfirm & Hname & Hmail & Hresponse & new & Hnew).
  split_and!; [done..|]. by exists new.
Qed.

(** X17. [register_view] lets an exception escape in one case only: the
    typed user name is free, but its normalised form differs from it and
    is taken, so that the insertion violates the unique constraint. *)
Theorem register_raises_only_on_normalised_clash (request : HttpRequest)
    (users : list User.t) (e : exn) :
  register_view request users = Raise e ->
  let username := PyStr.strip (POST_get request "username") in
  e = "IntegrityError: UNIQUE constraint failed: auth_user.username"
  /\ normalize_username username <> username
  /\ objects_exists (fun u => String.eqb (User.username u) username) users = false
  /\ objects_exists (fun u => String.eqb (User.username u) (normalize_username username))
                    users = true.
Proof.
  intros Hrun username. unfold register_view in Hrun.
  destruct (is_authenticated request); [discriminate|].
  destruct (String.eqb (method request) "POST"); [|discriminate].
  cbv zeta in Hrun. fold username in Hrun.
  destruct (PyStr.truthy (PyStr.strip (POST_get request "email"))); [|discriminate].
  destruct (PyStr.truthy username) eqn:Hu; [|discriminate].
  destruct (PyStr.truthy (POST_get request "password")); [|discriminate].
  destruct (PyStr.truthy (POST_get request "confirm_password")); [|discriminate].
  cbn [andb negb] in Hrun.
  destruct (negb _) in Hrun; [discriminate|].
  destruct (objects_exists _ users) eqn:Hname in Hrun; [discriminate|].
  destruct (objects_exists _ users) eqn:Hmail in Hrun; [discriminate|].
  unfold create_user in Hrun. rewrite Hu in Hrun. cbn [negb User.username] in Hrun.
  destruct (objects_exists _ users) eqn:Hclash in Hrun; [|discriminate].
  injection Hrun as <-. split_and!; [done | | done | done].
  intros Heq. rewrite Heq in Hclash. congruence.
Qed.

(** X18. [login_view] opens a session only for a user of the table whose
    e-mail address is the one typed, whose stored password checks against
    the one typed and whose account is active, and only on an anonymous
    request; staff are sent to "admin_home", everybody else to
    "civilian_dashboard". *)
Theorem login_opens_session_for_checked_user (request : HttpRequest)
    (users : list User.t) (response : HttpResponse) (u : User.t) :
  login_view request users = Ok (response, Some u) ->
  user request = None
  /\ In u users
  /\ User.email u = PyStr.strip (POST_get request "email")
  /\ check_password (POST_get request "password") (User.password u) = true
  /\ User.is_active u = true
  /\ response = Redirect (if User.is_staff u then "admin_home" else "civilian_dashboard").
Proof.
  unfold login_view, is_authenticated. intros Hrun.
  destruct (user request); [discriminate|].
  destruct (String.eqb (method request) "POST"); [|discriminate].
  cbv zeta in Hrun. destruct (negb _) in Hrun; [discriminate|].
  destruct (objects_get _ users) as [user_obj| |] eqn:Hget in Hrun; try discriminate.
  apply objects_get_found in Hget as (Hin & Hmail & _).
  apply String.eqb_eq in Hmail.
  unfold authenticate in Hrun.
  destruct (objects_get _ users) as [found| |] eqn:Hname in Hrun; try discriminate.
  apply objects_get_found in Hname as (_ & _ & Hunique).
  assert (Hsame : user_obj = found) by (apply Hunique; [done | apply String.eqb_refl]).
  subst found.
  destruct (check_password _ _) eqn:Hpw in Hrun; [|discriminate].
  destruct (User.is_active user_obj) eqn:Hactive in Hrun; [|discriminate].
  cbn [andb] in Hrun.
  destruct (User.is_staff user_obj) eqn:Hstaff; injection Hrun as <- <-;
    rewrite Hstaff; by split_and!.
Qed.

(** X19. A failed login does not say why it failed: on an anonymous POST
    with an e-mail address and a password, every response that opens no
    session is the same page, "Invalid credentials.", whether the address
    is unknown, the password wrong or the account inactive. *)
Theorem login_failure_is_uniform (request : HttpRequest) (users : list User.t)
    (response : HttpResponse) :
  user request = None ->
  method request = "POST" ->
  PyStr.truthy (PyStr.strip (POST_get request "email")) = true ->
  PyStr.truthy (POST_get request "password") = true ->
  login_view request users = Ok (response, None) ->
  response = login_html "Invalid credentials.".
Proof.
  intros Hanon Hpost He Hp. unfold login_view, is_authenticated.
  rewrite Hanon, Hpost. simpl String.eqb. cbv iota zeta. rewrite He, Hp. cbn [andb negb].
  destruct (objects_get _ users) as [user_obj| |]; [|by intros [= <-]|discriminate].
  destruct (authenticate users _ _) as [[found|]|e]; [|by intros [= <-]|discriminate].
  destruct (User.is_staff found); discriminate.
Qed.

(** X20. Registration followed by login: after [register_view] has
    created a user, an anonymous POST of the same e-mail address and
    password to [login_view] opens a session for that user and redirects
    to "civilian_dashboard", provided the hasher accepts the password it
    encoded and normalisation leaves the typed address and name as they
    are. *)
Theorem register_then_login (registration login_request : HttpRequest)
    (users users' : list User.t) (response : HttpResponse) (new : User.t) :
  register_view registration users = Ok (response, users', Some new) ->
  let email := PyStr.strip (POST_get registration "email") in
  let username := PyStr.strip (POST_get registration "username") in
  let password := POST_get registration "password" in
  normalize_email email = email ->
  normalize_username username = username ->
  check_password password (make_password password) = true ->
  user login_request = None ->
  method login_request = "POST" ->
  PyStr.strip (POST_get login_request "email") = email ->
  POST_get login_request "password" = password ->
  login_view login_request users' = Ok (Redirect "civilian_dashboard", Some new).
Proof.
  intros Hreg email username password Hnorm_e Hnorm_u Hhash Hanon Hpost Hmail Hpw.
  assert (Hchanged : users' <> users \/ Some new <> None) by (right; discriminate).
  destruct (register_creates_only_validated_user_aux registration users users' response
              (Some new) Hreg Hchanged)
    as (_ & _ & He & Hu & Hp & _ & Hfree_u & Hfree_e & _
        & new' & -> & [= <-] & Hname & Haddr & Hstored & Hstaff & Hactive).
  fold email username password in He, Hu, Hp, Hfree_u, Hfree_e, Hname, Haddr, Hstored.
  rewrite Hnorm_u in Hname. rewrite Hnorm_e in Haddr.
  unfold login_view, is_authenticated.
  rewrite Hanon, Hpost. simpl String.eqb. cbv iota zeta. rewrite Hmail, Hpw, He, Hp.
  cbn [andb negb].
  rewrite (objects_get_new _ users new Hfree_e) by (rewrite Haddr; apply String.eqb_refl).
  unfold authenticate. rewrite Hname.
  rewrite (objects_get_new _ users new Hfree_u) by (rewrite Hname; apply String.eqb_refl).
  rewrite Hstored, Hhash, Hactive. cbn [andb]. by rewrite Hstaff.
Qed.

(** X21. [login_view] expects at most one user per e-mail address: when
    two or more users of the table have the typed address, the lookup
    raises [MultipleObjectsReturned], which the view does not catch. *)
Theorem duplicate_email_breaks_login (request : HttpRequest) (users : list User.t) :
  user request = None ->
  method request = "POST" ->
  PyStr.truthy (PyStr.strip (POST_get request "email")) = true ->
  PyStr.truthy (POST_get request "password") = true ->
  (2 <= length (List.filter
                  (fun u => String.eqb (User.email u) (PyStr.strip (POST_get request "email")))
                  users))%nat ->
  login_view request users
  = Raise "MultipleObjectsReturned: get() returned more than one User".
Proof.
  intros Hanon Hpost He Hp Hmany. unfold login_view, is_authenticated.
  rewrite Hanon, Hpost. simpl String.eqb. cbv iota zeta. rewrite He, Hp. cbn [andb negb].
  by rewrite objects_get_many.
Qed.

(** X22. [register_view] compares the e-mail address as typed and stores
    it normalised: an address that is new as typed, but whose normalised
    form some user already has, passes the check, and afterwards two users
    of the table have the same address. *)
Theorem register_checks_email_before_normalisation (request : HttpRequest)
    (users : list User.t) (other : User.t) :
  user request = None ->
  method request = "POST" ->
  let email := PyStr.strip (POST_get request "email") in
  let username := PyStr.strip (POST_get request "username") in
  let password := POST_get request "password" in
  PyStr.truthy email = true ->
  PyStr.truthy username = true ->
  PyStr.truthy password = true ->
  POST_get request "confirm_password" = password ->
  objects_exists (fun u => String.eqb (User.username u) username) users = false ->
  objects_exists (fun u => String.eqb (User.username u) (normalize_username username))
                 users = false ->
  objects_exists (fun u => String.eqb (User.email u) email) users = false ->
  In other users ->
  User.email other = normalize_email email ->
  exists new,
    register_view request users = Ok (Redirect "home", users ++ [new], Some new)
    /\ User.email new = User.email other
    /\ (2 <= length (List.filter
                       (fun u => String.eqb (User.email u) (normalize_email email))
                       (users ++ [new])))%nat.
Proof.
  intros Hanon Hpost email username password He Hu Hp Hconfirm Hname Hnorm Hmail Hin Hother.
  rewrite register_view_valid by done. fold email username password.
  unfold create_user. rewrite Hu. cbn [negb User.username]. rewrite Hnorm.
  eexists. split_and!; [reflexivity | by cbn [User.email] |].
  rewrite List.filter_app, length_app. cbn [List.filter User.email].
  rewrite String.eqb_refl. cbn [length].
  assert (Hone : In other (List.filter
                    (fun u => String.eqb (User.email u) (normalize_email email)) users)).
  { apply filter_In. split; [done|]. rewrite Hother. apply String.eqb_refl. }
  destruct (List.filter _ users); [destruct Hone|simpl; lia].
Qed.

End AccountsFacts.

(** ** Further concrete runs *)

Section MoreRuns.
Import Fixtures AccountFixtures administrator.

(** Settles a closed hypothesis by evaluation. *)
Local Ltac evaluated := first [discriminate | vm_compute; reflexivity].

(** [strip] removes the whitespace of [str.isspace], beyond ASCII too:
    a field that holds a no-break space, or an em space and an
    ideographic space, is blank, and whitespace inside a field stays. *)
Example strip_unicode_whitespace :
  let nbsp := String (ascii_of_nat 194) (String (ascii_of_nat 160) "") in
  let em_space :=
    String (ascii_of_nat 226) (String (ascii_of_nat 128) (String (ascii_of_nat 131) "")) in
  let ideographic_space :=
    String (ascii_of_nat 227) (String (ascii_of_nat 128) (String (ascii_of_nat 128) "")) in
  PyStr.strip nbsp = ""
  /\ PyStr.strip (em_space +:+ " " +:+ ideographic_space) = ""
  /\ PyStr.strip (nbsp +:+ "Main" +:+ nbsp +:+ "St" +:+ ideographic_space +:+ " ")
     = "Main" +:+ nbsp +:+ "St"
  /\ fields_present {| method := "POST"; POST := <["title" := nbsp]> form;
                       FILES := ∅; user := None |} = false.
Proof. split_and!; vm_compute; reflexivity. Qed.

Lemma frame_rate_division_guarded_witness :
  res (_get_video_duration_seconds (L := libs_capture ninety_frames) video_webm empty_world)
  = Ok (Some (PyFloat.of_int 3)).
Proof.
  pose proof (frame_rate_division_guarded (L := libs_capture ninety_frames)
                video_webm empty_world) as Hthm.
  cbv zeta in Hthm. destruct Hthm as (_ & _ & _ & Hrun).
  assert (E1 : produced (outcome (L := libs_capture ninety_frames)
                           video_webm empty_world MoviePy) = None)
    by (vm_compute; reflexivity).
  assert (E2 : produced (outcome (L := libs_capture ninety_frames)
                           video_webm empty_world FFmpeg) = None)
    by (vm_compute; reflexivity).
  destruct (Hrun ninety_frames E1 E2 eq_refl) as [Hres _].
  rewrite Hres. vm_compute. reflexivity.
Defined.

(** C8, as the claim has it, fails: on an opened capture at 30 frames per
    second whose frame count is zero, or below zero, both values were read
    and the frame rate is strictly positive, the quotient exists, and the
    strategy yields no duration. *)
Lemma nonpositive_frame_count_yields_no_duration :
  (isOpened no_frames = true
   /\ PyFloat.ltb PyFloat.zero (CAP_PROP_FPS no_frames) = true
   /\ PyFloat.truediv (CAP_PROP_FRAME_COUNT no_frames) (CAP_PROP_FPS no_frames)
      = Ok PyFloat.zero
   /\ capture_duration no_frames None = Ok None
   /\ outcome (L := libs_capture no_frames) video_webm empty_world OpenCV = Ok None)
  /\ (isOpened negative_frames = true
      /\ PyFloat.ltb PyFloat.zero (CAP_PROP_FPS negative_frames) = true
      /\ PyFloat.truediv (CAP_PROP_FRAME_COUNT negative_frames)
                         (CAP_PROP_FPS negative_frames)
         = Ok (PyFloat.div (PyFloat.of_int (-1)) (PyFloat.of_int 30))
      /\ capture_duration negative_frames None = Ok None
      /\ outcome (L := libs_capture negative_frames) video_webm empty_world OpenCV
         = Ok None).
Proof. split_and!; vm_compute; reflexivity. Qed.

Lemma blank_field_rejected_first_witness :
  report_issue (L := libs (Ok one_box))
    {| method := "POST"; POST := <["title" := "   "]> form;
       FILES := <["image" := image_jpg]> ∅; user := None |} empty_world
  = (Ok (report_issue_html "All fields are required."), empty_world, []).
Proof.
  apply (blank_field_rejected_first (L := libs (Ok one_box)) _ empty_world "title").
  - reflexivity.
  - by left.
  - right. vm_compute. reflexivity.
Defined.

Lemma invalid_image_type_leaves_record_witness :
  res (report_issue (L := libs (Ok one_box))
         (post (<["image" := document_pdf]> ∅)) empty_world)
  = Ok (report_issue_html "Invalid image file type. Please upload a valid image.").
Proof.
  pose proof (invalid_image_type_leaves_record (L := libs (Ok one_box))
                (post (<["image" := document_pdf]> ∅)) empty_world
                document_pdf "application/pdf" one_box) as Hthm.
  cbv zeta in Hthm.
  destruct Hthm as (Hrun & _); [evaluated..|].
  by rewrite Hrun.
Defined.

Lemma image_report_created_witness :
  res (report_issue (L := libs (Ok one_box))
         (post (<["image" := image_jpg]> ∅)) empty_world)
  = Ok (Redirect "civilian_view_reports").
Proof.
  pose proof (image_report_created (L := libs (Ok one_box))
                (post (<["image" := image_jpg]> ∅)) empty_world
                image_jpg "image/jpeg" one_box) as Hthm.
  cbv zeta in Hthm.
  destruct Hthm as (Hrun & _); [evaluated..|].
  by rewrite Hrun.
Defined.

Lemma video_report_created_witness :
  res (report_issue (L := libs_clip 6)
         (post (<["video" := video_webm]> ∅)) empty_world)
  = Ok (Redirect "civilian_view_reports").
Proof.
  pose proof (video_report_created (L := libs_clip 6)
                (post (<["video" := video_webm]> ∅)) empty_world
                video_webm "video/webm" one_box (Some (PyFloat.of_int 6))) as Hthm.
  cbv zeta in Hthm.
  destruct Hthm as (Hrun & _); [evaluated..|].
  exact (f_equal fst Hrun).
Defined.

Lemma size_heuristic_decides_undecodable_video_witness :
  res (report_issue (L := libs (Ok one_box))
         (post (<["video" := upload "v.webm" "video/webm" 7340032]> ∅)) empty_world)
  = Ok (report_issue_html
          "Video must be 6 seconds or less. Your video is ? seconds long.").
Proof.
  pose proof (size_heuristic_decides_undecodable_video (L := libs (Ok one_box))
                (post (<["video" := upload "v.webm" "video/webm" 7340032]> ∅)) empty_world
                (upload "v.webm" "video/webm" 7340032) "ann_videos" one_box
                (upload "v.webm" "video/webm" 7340032)) as Hthm.
  cbv zeta in Hthm.
  destruct Hthm as (Hreject & _);
    [evaluated | evaluated | evaluated | evaluated | evaluated | evaluated | |].
  - intros [] Hs; try (vm_compute; reflexivity). by destruct Hs.
  - apply Hreject; vm_compute; reflexivity.
Defined.

Lemma page_beyond_last_is_empty_witness :
  exists p,
    pagination [1; 2; 3]%nat 5 = Ok p
    /\ reports_page p = []
    /\ has_next p = false
    /\ next_page p = None
    /\ total_reports p = 3%Z.
Proof.
  apply (page_beyond_last_is_empty [1; 2; 3]%nat 5); vm_compute; reflexivity.
Defined.

Lemma nonpositive_page_raises_witness :
  pagination [1; 2; 3]%nat 0 = Raise "ValueError: Negative indexing is not supported.".
Proof.
  apply (nonpositive_page_raises [1; 2; 3]%nat 0). lia.
Defined.

Lemma page_links_sound_witness :
  next_page (A := nat)
    {| reports_page := seq 0 20; total_reports := 25; total_pages := 2; current_page := 1;
       has_previous := false; has_next := true; previous_page := None;
       next_page := Some 2%Z |} = Some 2%Z
  /\ page_items (seq 0 25) 2 <> [].
Proof.
  apply (proj1 (page_links_sound (seq 0 25) 1 _ eq_refl)). reflexivity.
Defined.

Lemma register_creates_only_validated_user_witness :
  exists users' new,
    register_view (Au := auth)
      (anonymous_post [("email", " bea@example.org "); ("username", "bea");
                       ("password", "pw"); ("confirm_password", "pw")]) [ann]
    = Ok (Redirect "home", users', Some new)
    /\ users' = [ann] ++ [new]
    /\ User.username new = "bea"
    /\ User.email new = "bea@example.org"
    /\ User.password new = "plain$pw".
Proof.
  assert (Hrun :
    register_view (Au := auth)
      (anonymous_post [("email", " bea@example.org "); ("username", "bea");
                       ("password", "pw"); ("confirm_password", "pw")]) [ann]
    = Ok (Redirect "home",
          [ann; {| User.id := 1; User.username := "bea"; User.email := "bea@example.org";
                   User.password := "plain$pw"; User.is_staff := false;
                   User.is_active := true |}],
          Some {| User.id := 1; User.username := "bea"; User.email := "bea@example.org";
                  User.password := "plain$pw"; User.is_staff := false;
                  User.is_active := true |}))
    by (vm_compute; reflexivity).
  assert (Hchanged :
    [ann; {| User.id := 1; User.username := "bea"; User.email := "bea@example.org";
             User.password := "plain$pw"; User.is_staff := false;
             User.is_active := true |}] <> [ann]
    \/ Some {| User.id := 1; User.username := "bea"; User.email := "bea@example.org";
               User.password := "plain$pw"; User.is_staff := false;
               User.is_active := true |} <> None) by (right; discriminate).
  pose proof (register_creates_only_validated_user (Au := auth) _ _ _ _ _ Hrun Hchanged)
    as Hthm.
  cbv zeta in Hthm.
  destruct Hthm as (_ & _ & _ & _ & _ & _ & _ & _ & _
                    & new & Hnew & [= <-] & Hname & Hmail & Hstored & _).
  eexists _, _. split_and!; [exact Hrun | exact Hnew | exact Hname | exact Hmail | exact Hstored].
Defined.

Lemma register_raises_only_on_normalised_clash_witness :
  normalize_username (Auth := auth_nfkc) "ﬁsh" <> "ﬁsh"
  /\ objects_exists (fun u => String.eqb (User.username u) "fish") [fish] = true.
Proof.
  destruct (register_raises_only_on_normalised_clash (Au := auth_nfkc)
              (anonymous_post [("email", "f@example.org"); ("username", "ﬁsh");
                               ("password", "pw"); ("confirm_password", "pw")])
              [fish] "IntegrityError: UNIQUE constraint failed: auth_user.username")
    as (_ & Hdiff & _ & Htaken); [vm_compute; reflexivity|].
  split; [exact Hdiff | exact Htaken].
Defined.

Lemma login_opens_session_for_checked_user_witness :
  login_view (Au := auth)
    (anonymous_post [("email", "Ann@example.org"); ("password", "secret")]) [ann]
  = Ok (Redirect "civilian_dashboard", Some ann)
  /\ In ann [ann]
  /\ check_password (Auth := auth) "secret" (User.password ann) = true
  /\ User.is_active ann = true.
Proof.
  assert (Hrun : login_view (Au := auth)
                   (anonymous_post [("email", "Ann@example.org"); ("password", "secret")])
                   [ann]
                 = Ok (Redirect "civilian_dashboard", Some ann))
    by (vm_compute; reflexivity).
  destruct (login_opens_session_for_checked_user (Au := auth) _ _ _ _ Hrun)
    as (_ & Hin & _ & Hchecked & Hactive & _).
  split_and!; [exact Hrun | exact Hin | exact Hchecked | exact Hactive].
Defined.

Lemma login_failure_is_uniform_witness :
  exists response,
    login_view (Au := auth)
      (anonymous_post [("email", "Ann@example.org"); ("password", "wrong")]) [ann]
    = Ok (response, None)
    /\ response = login_html "Invalid credentials.".
Proof.
  assert (Hrun : login_view (Au := auth)
                   (anonymous_post [("email", "Ann@example.org"); ("password", "wrong")])
                   [ann]
                 = Ok (Render "civilian/login.html" [("error", "Invalid credentials.")],
                       None))
    by (vm_compute; reflexivity).
  eexists. split; [exact Hrun|].
  apply (login_failure_is_uniform (Au := auth)
           (anonymous_post [("email", "Ann@example.org"); ("password", "wrong")])
           [ann]); [vm_compute; reflexivity.. | exact Hrun].
Defined.

Lemma register_then_login_witness :
  login_view (Au := auth)
    (anonymous_post [("email", "bea@example.org"); ("password", "pw")])
    ([ann] ++ [{| User.id := 1; User.username := "bea"; User.email := "bea@example.org";
                  User.password := "plain$pw"; User.is_staff := false;
                  User.is_active := true |}])
  = Ok (Redirect "civilian_dashboard",
        Some {| User.id := 1; User.username := "bea"; User.email := "bea@example.org";
                User.password := "plain$pw"; User.is_staff := false;
                User.is_active := true |}).
Proof.
  apply (register_then_login (Au := auth)
           (anonymous_post [("email", " bea@example.org "); ("username", "bea");
                            ("password", "pw"); ("confirm_password", "pw")])
           (anonymous_post [("email", "bea@example.org"); ("password", "pw")])
           [ann] _ (Redirect "home")); vm_compute; reflexivity.
Defined.

Lemma duplicate_email_breaks_login_witness :
  login_view (Au := auth)
    (anonymous_post [("email", "Ann@example.org"); ("password", "secret")])
    [ann; {| User.id := 1; User.username := "ann2"; User.email := "Ann@example.org";
             User.password := "plain$pw"; User.is_staff := false;
             User.is_active := true |}]
  = Raise "MultipleObjectsReturned: get() returned more than one User".
Proof.
  apply (duplicate_email_breaks_login (Au := auth));
    first [vm_compute; reflexivity | vm_compute; lia].
Defined.

Lemma register_checks_email_before_normalisation_witness :
  exists new,
    register_view (Au := auth)
      (anonymous_post [("email", "Ann@EXAMPLE.org"); ("username", "ann2");
                       ("password", "pw"); ("confirm_password", "pw")]) [ann]
    = Ok (Redirect "home", [ann] ++ [new], Some new)
    /\ User.email new = User.email ann.
Proof.
  destruct (register_checks_email_before_normalisation (Au := auth)
              (anonymous_post [("email", "Ann@EXAMPLE.org"); ("username", "ann2");
                               ("password", "pw"); ("confirm_password", "pw")])
              [ann] ann) as (new & Hrun & Hmail & _);
    try (vm_compute; reflexivity).
  - by left.
  - by exists new.
Defined.

End MoreRuns.
